(** * Reporting-Tool: the marketing-mix wrapper (MeridianWrapper)

    A shallow embedding of the two numeric methods of the TypeScript class
    [MeridianWrapper] (the module the API route imports as [@/lib/meridian]):
    [get_optimal_budget_allocation] (the budget allocator) and
    [generate_report_data] (the attribution aggregator).  Line numbers in the
    comments are those of the class's source file.

    - A JavaScript [number] is an IEEE 754 binary64 value: the kernel's
      primitive [float] with the operations [+], [*], [/], [<] and [===].
      The methods are written once over an interface of these operations
      ([Number]) and run on doubles ([Number_float]); the same text is also
      read over the rationals ([Number_Q]) where a statement is about exact
      arithmetic.
    - A JavaScript object used as a record from names to values
      ([Record<string, T>]) is an association list in insertion order with
      pairwise different keys ([JsObject]).
    - [throw], [try]/[catch], [console.error] and [Math.random] are the
      effects of a small state-and-exception monad over an explicit [World]. *)

From Stdlib Require Import List String Ascii Bool Arith ZArith QArith Qfield Floats Lia.
Import ListNotations.

Close Scope Q_scope.
Local Open Scope string_scope.
Local Open Scope list_scope.

(* ===================================================================== *)
(** ** JavaScript objects as insertion-ordered records *)
(* ===================================================================== *)

Module JsObject.

(** [Record<string, V>]: the own enumerable string keys in insertion order.
    (Keys that are canonical array indices would be enumerated first by
    the engine, and a name such as [toString] is found by [in] on the
    prototype; channel names are taken to be neither.) *)
Definition obj (V : Type) : Type := list (string * V).

(** [o[k]] *)
Fixpoint get {V} (k : string) (o : obj V) : option V :=
  match o with
  | [] => None
  | (k', v) :: o' => if String.eqb k k' then Some v else get k o'
  end.

(** [k in o] *)
Definition has {V} (k : string) (o : obj V) : bool :=
  match get k o with Some _ => true | None => false end.

(** [o[k] = v]: overwrite in place, or append a new key at the end. *)
Fixpoint set {V} (k : string) (v : V) (o : obj V) : obj V :=
  match o with
  | [] => [(k, v)]
  | (k', v') :: o' =>
      if String.eqb k k' then (k', v) :: o' else (k', v') :: set k v o'
  end.

(** [Object.keys(o)] and [Object.values(o)] *)
Definition keys {V} (o : obj V) : list string := map fst o.
Definition values {V} (o : obj V) : list V := map snd o.

(** [for (const k in o) body], threading the loop's variables [s]. *)
Definition for_in {V S} (o : obj V) (body : string -> S -> S) (s : S) : S :=
  fold_left (fun s k => body k s) (keys o) s.

(** An object has no two entries with the same key. *)
Definition wf {V} (o : obj V) : Prop := NoDup (keys o).

End JsObject.
Import JsObject.

(* ===================================================================== *)
(** ** Numbers *)
(* ===================================================================== *)

(** The arithmetic the two methods use on [number]. *)
Class Number (num : Type) : Type := {
  lit : Z -> num;                 (* an integer literal *)
  add : num -> num -> num;        (* a + b *)
  mul : num -> num -> num;        (* a * b *)
  div : num -> num -> num;        (* a / b *)
  lt : num -> num -> bool;        (* a < b *)
  strict_eq : num -> num -> bool  (* a === b *)
}.

(** [a > b] is [b < a]; [a !== b] is the negation of [a === b]. *)
Definition gt {num} `{Number num} (a b : num) : bool := lt b a.
Definition strict_ne {num} `{Number num} (a b : num) : bool := negb (strict_eq a b).

(** Doubles: what the program runs on. *)
#[global] Instance Number_float : Number float := {
  lit z := SF2Prim (binary_normalize prec emax z 0 false);
  add := PrimFloat.add;
  mul := PrimFloat.mul;
  div := PrimFloat.div;
  lt := PrimFloat.ltb;
  strict_eq := PrimFloat.eqb
}.


(** [xs.reduce((sum, x) => sum + x, 0)] *)
Definition reduce_sum {num} `{Number num} (xs : list num) : num :=
  fold_left add xs (lit 0).

(* ===================================================================== *)
(** ** Errors, the world, and the monad of a method body *)
(* ===================================================================== *)

(** A thrown [Error] object: its [name] and its [message]. *)
Record JsError : Type := { name : string; message : string }.

(** [new Error(msg)] *)
Definition Error (msg : string) : JsError := {| name := "Error"; message := msg |}.

(** The [TypeError] the engine raises on [undefined.prop]. *)
Definition TypeError (prop : string) : JsError :=
  {| name := "TypeError";
     message := "Cannot read properties of undefined (reading '" ++ prop ++ "')" |}.

Inductive outcome (A : Type) : Type :=
| Return (a : A)
| Throw (e : JsError).
Arguments Return {A} a.
Arguments Throw {A} e.

Section Effects.

Context {num : Type}.

(** What a method touches outside its object: the sequence of values
    [Math.random()] will return, how many were taken, and the lines
    written by [console.error]. *)
Record World : Type := {
  random : nat -> num;
  drawn : nat;
  console : list (string * JsError)
}.

Definition M (A : Type) : Type := World -> outcome A * World.

Definition ret {A} (a : A) : M A := fun w => (Return a, w).

Definition bind {A B} (c : M A) (k : A -> M B) : M B :=
  fun w => match c w with
           | (Return a, w') => k a w'
           | (Throw e, w') => (Throw e, w')
           end.

Definition throw {A} (e : JsError) : M A := fun w => (Throw e, w).

(** A computation that can only return or throw. *)
Definition lift {A} (o : outcome A) : M A := fun w => (o, w).

(** [try { body } catch (error) { handler }] *)
Definition try_catch {A} (body : M A) (handler : JsError -> M A) : M A :=
  fun w => match body w with
           | (Return a, w') => (Return a, w')
           | (Throw e, w') => handler e w'
           end.

(** [console.error(label, error)] *)
Definition console_error (label : string) (e : JsError) : M unit :=
  fun w => (Return tt,
            {| random := random w; drawn := drawn w;
               console := console w ++ [(label, e)] |}).

(** [Math.random()] *)
Definition Math_random : M num :=
  fun w => (Return (random w (drawn w)),
            {| random := random w; drawn := S (drawn w);
               console := console w |}).

End Effects.
Arguments World num : clear implicits.
Arguments M num A : clear implicits.

Declare Scope js_scope.
Delimit Scope js_scope with js.
Notation "x <- c ;; k" := (bind c (fun x => k))
  (at level 61, c at next level, right associativity) : js_scope.
Notation "c ;;; k" := (bind c (fun _ => k))
  (at level 61, right associativity) : js_scope.
Local Open Scope js_scope.

(** [for (const x of xs) body], threading the loop's variables [s]; the
    bodies of the program's loops read and assign objects and may throw. *)
Fixpoint for_of {A S} (xs : list A) (body : A -> S -> outcome S) (s : S) : outcome S :=
  match xs with
  | [] => Return s
  | x :: xs' =>
      match body x s with
      | Return s' => for_of xs' body s'
      | Throw e => Throw e
      end
  end.

(** [Array.from({ length: n }, f)] for an effectful [f] of the index. *)
Fixpoint Array_from_aux {num A} (n i : nat) (f : nat -> M num A) : M num (list A) :=
  match n with
  | O => ret []
  | S n' => a <- f i ;; rest <- Array_from_aux n' (S i) f ;; ret (a :: rest)
  end.
Definition Array_from {num A} (n : nat) (f : nat -> M num A) : M num (list A) :=
  Array_from_aux n 0 f.

(* ===================================================================== *)
(** ** The wrapper's state *)
(* ===================================================================== *)

Section Wrapper.

Context {num : Type} `{Number num}.

(** [roi_values[channel]] *)
Record RoiValue : Type := {
  mean : num;
  std : num;
  lower_bound : num;
  upper_bound : num
}.

Record ModelFit : Type := { r_squared : num; mape : num }.

(** [this.results] once [fit_model] has run. *)
Record Results : Type := {
  channel_contributions : obj (list num);
  roi_values : obj RoiValue;
  model_fit : ModelFit
}.

(** The fields of [MeridianWrapper] the two methods read. [results] is
    [null] until [fit_model] stores an object. *)
Record MeridianWrapper : Type := {
  results : option Results;
  channelColumns : list string
}.

(** [new MeridianWrapper()] *)
Definition constructor : MeridianWrapper :=
  {| results := None; channelColumns := [] |}.

(** One entry of the [constraints] argument: [{ min?, max? }]. *)
Record Constraint : Type := { min : option num; max : option num }.

(* =================================================================== *)
(** ** get_optimal_budget_allocation *)
(* =================================================================== *)

(** The loop body at lines 153-160: the two guarded assignments for one
    channel of [constraints]. *)
Definition apply_constraint (channel : string) (c : Constraint)
    (allocation : obj num) : obj num :=
  if has channel allocation then
    let allocation1 :=
      match min c, get channel allocation with
      | Some lo, Some a => if lt a lo then set channel lo allocation else allocation
      | _, _ => allocation
      end in
    match max c, get channel allocation1 with
    | Some hi, Some a => if gt a hi then set channel hi allocation1 else allocation1
    | _, _ => allocation1
    end
  else allocation.

(** Lines 137-140: [roiMeans[channel] = this.results.roi_values[channel].mean]. *)
Definition roi_means (res : Results) : obj num :=
  for_in (roi_values res)
    (fun channel roiMeans =>
       match get channel (roi_values res) with
       | Some r => set channel (mean r) roiMeans
       | None => roiMeans
       end) [].

(** Lines 145-148: the allocation proportional to ROI. *)
Definition initial_allocation (roiMeans : obj num) (totalRoi totalBudget : num)
    : obj num :=
  for_in roiMeans
    (fun channel allocation =>
       match get channel roiMeans with
       | Some roi => set channel (mul (div roi totalRoi) totalBudget) allocation
       | None => allocation
       end) [].

(** Lines 151-162: [if (constraints) for (const channel in constraints) ...]. *)
Definition apply_constraints (constraints : option (obj Constraint))
    (allocation : obj num) : obj num :=
  match constraints with
  | None => allocation
  | Some cs =>
      for_in cs
        (fun channel allocation =>
           match get channel cs with
           | Some c => apply_constraint channel c allocation
           | None => allocation
           end) allocation
  end.

(** Lines 165-171: one uniform rescale when the total is not the budget. *)
Definition normalize (totalBudget : num) (allocation : obj num) : obj num :=
  let currentTotal := reduce_sum (values allocation) in
  if strict_ne currentTotal totalBudget then
    let scalingFactor := div totalBudget currentTotal in
    for_in allocation
      (fun channel allocation =>
         match get channel allocation with
         | Some a => set channel (mul a scalingFactor) allocation
         | None => allocation
         end) allocation
  else allocation.

Definition no_results_message : string := "No model results. Call fit_model() first.".

Definition get_optimal_budget_allocation (this : MeridianWrapper)
    (totalBudget : num) (constraints : option (obj Constraint))
    : M num (obj num) :=
  try_catch
    (match results this with
     | None => throw (Error no_results_message)
     | Some res =>
         let roiMeans := roi_means res in
         let totalRoi := reduce_sum (values roiMeans) in
         let allocation := initial_allocation roiMeans totalRoi totalBudget in
         let allocation := apply_constraints constraints allocation in
         let allocation := normalize totalBudget allocation in
         ret allocation
     end)
    (fun error =>
       console_error "Error getting optimal budget allocation:" error ;;;
       throw error).

(* =================================================================== *)
(** ** generate_report_data *)
(* =================================================================== *)

Record ModelSummary : Type := {
  summary_r_squared : num;
  summary_mape : num;
  period_start : string;
  period_end : string;
  channels_analyzed : nat
}.

(** [reportData.channel_performance[channel]] *)
Record ChannelPerformance : Type := {
  roi : num;
  roi_lower : num;
  roi_upper : num;
  total_contribution : num;
  contribution_percentage : num
}.

Record TimeSeriesData : Type := {
  dates : list string;
  target : list num;
  series_channel_contributions : obj (list num)
}.

Record ReportData : Type := {
  model_summary : ModelSummary;
  channel_performance : obj ChannelPerformance;
  time_series_data : TimeSeriesData
}.

(** [reportData.channel_performance[channel] = p] *)
Definition set_channel_performance (channel : string) (p : ChannelPerformance)
    (reportData : ReportData) : ReportData :=
  {| model_summary := model_summary reportData;
     channel_performance := set channel p (channel_performance reportData);
     time_series_data := time_series_data reportData |}.

(** [reportData.time_series_data.channel_contributions[channel] = series] *)
Definition set_series (channel : string) (series : list num)
    (reportData : ReportData) : ReportData :=
  {| model_summary := model_summary reportData;
     channel_performance := channel_performance reportData;
     time_series_data :=
       {| dates := dates (time_series_data reportData);
          target := target (time_series_data reportData);
          series_channel_contributions :=
            set channel series
              (series_channel_contributions (time_series_data reportData)) |} |}.

(** [p.contribution_percentage = q] *)
Definition set_contribution_percentage (q : num) (p : ChannelPerformance)
    : ChannelPerformance :=
  {| roi := roi p; roi_lower := roi_lower p; roi_upper := roi_upper p;
     total_contribution := total_contribution p;
     contribution_percentage := q |}.

(** Lines 199-203: the ninety days from 2025-01-01, as
    [toISOString().split('T')[0]] prints them (host time zone UTC). *)
Definition two_digits (n : nat) : string :=
  String (ascii_of_nat (48 + n / 10)%nat)
    (String (ascii_of_nat (48 + n mod 10)%nat) "").

Fixpoint month_day (lengths : list nat) (month day : nat) : nat * nat :=
  match lengths with
  | [] => (month, day)
  | len :: rest =>
      if (day <=? len)%nat then (month, day)
      else month_day rest (S month) (day - len)
  end.

Definition iso_date (i : nat) : string :=
  let '(m, d) := month_day [31; 28; 31; 30; 31; 30; 31; 31; 30; 31; 30; 31] 1 (1 + i) in
  "2025-" ++ two_digits m ++ "-" ++ two_digits d.

(** Lines 211-224: the body of the first loop over [this.channelColumns]. *)
Definition performance_step (res : Results) (channel : string)
    (st : num * ReportData) : outcome (num * ReportData) :=
  let '(totalContribution, reportData) := st in
  match get channel (channel_contributions res) with
  | None => Throw (TypeError "reduce")
  | Some series =>
      let channelContribution := reduce_sum series in
      let totalContribution := add totalContribution channelContribution in
      match get channel (roi_values res) with
      | None => Throw (TypeError "mean")
      | Some r =>
          let reportData :=
            set_channel_performance channel
              {| roi := mean r;
                 roi_lower := lower_bound r;
                 roi_upper := upper_bound r;
                 total_contribution := channelContribution;
                 contribution_percentage := lit 0 |} reportData in
          let reportData := set_series channel series reportData in
          Return (totalContribution, reportData)
      end
  end.

(** Lines 227-230: the body of the second loop. *)
Definition percentage_step (totalContribution : num) (channel : string)
    (reportData : ReportData) : outcome ReportData :=
  match get channel (channel_performance reportData) with
  | None => Throw (TypeError "total_contribution")
  | Some p =>
      Return (set_channel_performance channel
                (set_contribution_percentage
                   (div (total_contribution p) totalContribution) p)
                reportData)
  end.

(** Lines 209-230: the two loops. *)
Definition channel_metrics (res : Results) (channelColumns : list string)
    (reportData : ReportData) : outcome ReportData :=
  match for_of channelColumns (performance_step res) (lit 0, reportData) with
  | Throw e => Throw e
  | Return (totalContribution, reportData) =>
      for_of channelColumns (percentage_step totalContribution) reportData
  end.

Definition generate_report_data (this : MeridianWrapper) : M num ReportData :=
  try_catch
    (match results this with
     | None => throw (Error no_results_message)
     | Some res =>
         target <- Array_from 90
                     (fun _ => r <- Math_random ;;
                               ret (add (mul r (lit 10000)) (lit 5000))) ;;
         let reportData :=
           {| model_summary :=
                {| summary_r_squared := r_squared (model_fit res);
                   summary_mape := mape (model_fit res);
                   period_start := "2025-01-01";
                   period_end := "2025-03-31";
                   channels_analyzed := List.length (channelColumns this) |};
              channel_performance := [];
              time_series_data :=
                {| dates := map iso_date (seq 0 90);
                   target := target;
                   series_channel_contributions := [] |} |} in
         lift (channel_metrics res (channelColumns this) reportData)
     end)
    (fun error =>
       console_error "Error generating report data:" error ;;;
       throw error).

End Wrapper.

Arguments RoiValue num : clear implicits.
Arguments ModelFit num : clear implicits.
Arguments Results num : clear implicits.
Arguments MeridianWrapper num : clear implicits.
Arguments Constraint num : clear implicits.
Arguments ModelSummary num : clear implicits.
Arguments ChannelPerformance num : clear implicits.
Arguments TimeSeriesData num : clear implicits.
Arguments ReportData num : clear implicits.

(* ===================================================================== *)
(** ** Vocabulary of the statements *)
(* ===================================================================== *)


Section Observations.

Context {num : Type} `{Number num}.
Implicit Types (res : Results num) (rd : ReportData num) (cols : list string).

(** Every value an object holds has the property [P]. *)
Definition all_values (P : num -> Prop) (o : obj num) : Prop :=
  Forall (fun kv => P (snd kv)) o.

(** What lines 154-159 make of an amount [a]: raised to [min] when below
    it, then lowered to [max] when above it. *)
Definition clamp (c : Constraint num) (a : num) : num :=
  let a1 := match min c with
            | Some lo => if lt a lo then lo else a
            | None => a
            end in
  match max c with
  | Some hi => if gt a1 hi then hi else a1
  | None => a1
  end.

(** [min <= x <= max] for the bounds a constraint supplies, and an
    allocation that sums to the budget with every constrained channel
    within its bounds. *)
Definition within_bounds (c : Constraint num) (x : num) : bool :=
  match min c with Some lo => negb (lt x lo) | None => true end
  && match max c with Some hi => negb (gt x hi) | None => true end.

Definition meets (cs : obj (Constraint num)) (totalBudget : num)
    (allocation : obj num) : bool :=
  strict_eq (reduce_sum (values allocation)) totalBudget
  && forallb (fun kv => match get (fst kv) cs with
                        | Some c => within_bounds c (snd kv)
                        | None => true
                        end) allocation.

(** Every bound a constraint supplies has the property [P]. *)
Definition bounds_in (P : num -> Prop) (c : Constraint num) : Prop :=
  (forall lo, min c = Some lo -> P lo) /\ (forall hi, max c = Some hi -> P hi).


(** The report before the loops (lines 187-207), given the drawn [target]. *)
Definition initial_report (this : MeridianWrapper num) res (t : list num)
    : ReportData num :=
  {| model_summary :=
       {| summary_r_squared := r_squared (model_fit res);
          summary_mape := mape (model_fit res);
          period_start := "2025-01-01";
          period_end := "2025-03-31";
          channels_analyzed := List.length (channelColumns this) |};
     channel_performance := [];
     time_series_data :=
       {| dates := map iso_date (seq 0 90);
          target := t;
          series_channel_contributions := [] |} |}.

(** The [n] values [Math.random()] returns next, each through [g]. *)
Definition next_draws (g : num -> num) (n : nat) (w : World num) : list num :=
  map (fun j => g (random w (drawn w + j))) (seq 0 n).

Definition after_draws (n : nat) (w : World num) : World num :=
  {| random := random w; drawn := drawn w + n; console := console w |}.

Definition logged (label : string) (e : JsError) (w : World num) : World num :=
  {| random := random w; drawn := drawn w; console := console w ++ [(label, e)] |}.

(** [this.results] has a series and an ROI entry for the channel. *)
Definition present res (channel : string) : Prop :=
  exists series r,
    get channel (channel_contributions res) = Some series /\
    get channel (roi_values res) = Some r.

(** The sum of a channel's series, and the sum of these over the columns. *)
Definition channel_total res (channel : string) : num :=
  match get channel (channel_contributions res) with
  | Some series => reduce_sum series
  | None => lit 0
  end.

Definition grand_total res cols : num :=
  fold_left add (map (channel_total res) cols) (lit 0).

(** What the first loop stores for a channel. *)
Definition performance0 res (channel : string) : option (ChannelPerformance num) :=
  match get channel (channel_contributions res), get channel (roi_values res) with
  | Some series, Some r =>
      Some {| roi := mean r;
              roi_lower := lower_bound r;
              roi_upper := upper_bound r;
              total_contribution := reduce_sum series;
              contribution_percentage := lit 0 |}
  | _, _ => None
  end.

(** What the second loop makes of an entry. *)
Definition finalize (total : num) (p : ChannelPerformance num) : ChannelPerformance num :=
  set_contribution_percentage (div (total_contribution p) total) p.

Definition performance res (total : num) (channel : string)
    : option (ChannelPerformance num) :=
  option_map (finalize total) (performance0 res channel).

End Observations.

(** [contribution_percentage] and [total_contribution] of every entry of a
    returned report, in the order of [channel_performance]. *)
Definition percentages {num} (rep : ReportData num) : obj num :=
  map (fun kv => (fst kv, contribution_percentage (snd kv))) (channel_performance rep).

Definition totals {num} (rep : ReportData num) : obj num :=
  map (fun kv => (fst kv, total_contribution (snd kv))) (channel_performance rep).

(** [target = r * 10000 + 5000] for a draw [r] (line 204). *)
Definition target_of_draw {num} `{Number num} (r : num) : num :=
  add (mul r (lit 10000)) (lit 5000).


(** Signs of doubles, read on their specification [Prim2SF]. *)
Module FloatSign.

Local Open Scope float_scope.

(** NaN, a zero of either sign, or a positive number (infinity included):
    exactly the doubles [x] for which [x < 0] is false. *)
Definition sf_not_negative (s : spec_float) : bool :=
  match s with
  | S754_nan | S754_zero _ => true
  | S754_infinity sg | S754_finite sg _ _ => negb sg
  end.

(** The same without the negative zero: the values a sum that starts at
    [0] can take when it adds numbers that are not negative. *)
Definition sf_total (s : spec_float) : bool :=
  match s with
  | S754_nan => true
  | S754_zero sg | S754_infinity sg | S754_finite sg _ _ => negb sg
  end.

Definition not_negative (x : float) : Prop := (x <? 0) = false.
Definition total_like (x : float) : Prop := sf_total (Prim2SF x) = true.

End FloatSign.

(** Concrete wrappers and worlds to run the methods on. *)
Module Scenario.

Local Open Scope float_scope.

(** A world to run in: [Math.random()] returns 0.25 ninety times, then 0.75. *)
Definition world : World float :=
  {| random := fun i => if (i <? 90)%nat then 0.25 else 0.75;
     drawn := 0; console := [] |}.

Definition roi_value (m : float) : RoiValue float :=
  {| mean := m; std := 0; lower_bound := m; upper_bound := m |}.

(** A wrapper whose [results] hold the given ROI means and series. *)
Definition fitted (roi : obj float) (series : obj (list float)) : MeridianWrapper float :=
  {| results :=
       Some {| channel_contributions := series;
               roi_values := map (fun kv => (fst kv, roi_value (snd kv))) roi;
               model_fit := {| r_squared := 0.75; mape := 0.125 |} |};
     channelColumns := keys series |}.

Definition only_max (hi : float) : Constraint float := {| min := None; max := Some hi |}.
Definition only_min (lo : float) : Constraint float := {| min := Some lo; max := None |}.

End Scenario.

(* ===================================================================== *)
(** ** The rest of the class: the object and its other methods *)
(* ===================================================================== *)

(** The methods below mutate [this] and run on doubles.  A method is a
    computation over the wrapper object and the world; what it assigned
    before it throws stays assigned. *)
Module Lifecycle.

Local Open Scope float_scope.

(** The decimal literals of the source that are not doubles, each as the
    double the engine reads it as. *)
Definition lit_0_2 : float := 0x1.999999999999ap-3.   (* 0.2 *)
Definition lit_1_96 : float := 0x1.f5c28f5c28f5cp+0.  (* 1.96 *)
Definition lit_0_7 : float := 0x1.6666666666666p-1.   (* 0.7 *)
Definition lit_0_1 : float := 0x1.999999999999ap-4.   (* 0.1 *)
Definition lit_0_05 : float := 0x1.999999999999ap-5.  (* 0.05 *)
Definition lit_1_1 : float := 0x1.199999999999ap+0.   (* 1.1 *)

(** [Math.max(a, b)]: NaN when either is NaN, and +0 above -0. *)
Definition Math_max (a b : float) : float :=
  if is_nan a || is_nan b then nan
  else if a <? b then b
  else if b <? a then a
  else if get_sign a then b else a.

(** [!!x] for a number [x], and [x || d] for a number that may be
    [undefined]. *)
Definition truthy (x : float) : bool := negb (x =? 0) && negb (is_nan x).

Definition or_else (x : option float) (d : float) : float :=
  match x with
  | Some v => if truthy v then v else d
  | None => d
  end.

(** A parameter with a default value: [undefined] takes the default. *)
Definition default {A} (x : option A) (d : A) : A :=
  match x with Some a => a | None => d end.

(** [data: any], as [load_data] and the route read it: only [data.channels]
    is ever looked at ([undefined] when the property is absent). *)
Record ModelData : Type := { channels : option (obj (list float)) }.

(** [this.model] once [build_model] has run. *)
Record ModelParams : Type := {
  adstockMaxLag : float;
  hillExponentBound : float;
  calibrationData : option ModelData;
  params_channels : list string;
  params_target : string;
  params_controls : list string
}.

Record Model : Type := { status : string; params : ModelParams }.

(** All fields of a [MeridianWrapper]; [numeric] holds the two that
    [get_optimal_budget_allocation] and [generate_report_data] read. *)
Record WrapperObject : Type := {
  model : option Model;
  data : option ModelData;
  numeric : MeridianWrapper float;
  dateColumn : string;
  targetColumn : string;
  controlColumns : list string
}.

(** Lines 11-19: [new MeridianWrapper()]. *)
Definition new_MeridianWrapper : WrapperObject :=
  {| model := None; data := None; numeric := constructor;
     dateColumn := "date"; targetColumn := "target"; controlColumns := [] |}.

(** Assignments to the fields of [this]. *)
Definition set_model (m : option Model) (this : WrapperObject) : WrapperObject :=
  {| model := m; data := data this; numeric := numeric this;
     dateColumn := dateColumn this; targetColumn := targetColumn this;
     controlColumns := controlColumns this |}.

Definition set_data (d : option ModelData) (this : WrapperObject) : WrapperObject :=
  {| model := model this; data := d; numeric := numeric this;
     dateColumn := dateColumn this; targetColumn := targetColumn this;
     controlColumns := controlColumns this |}.

Definition set_results (r : option (Results float)) (this : WrapperObject)
    : WrapperObject :=
  {| model := model this; data := data this;
     numeric := {| results := r; channelColumns := channelColumns (numeric this) |};
     dateColumn := dateColumn this; targetColumn := targetColumn this;
     controlColumns := controlColumns this |}.

Definition set_channelColumns (cols : list string) (this : WrapperObject)
    : WrapperObject :=
  {| model := model this; data := data this;
     numeric := {| results := results (numeric this); channelColumns := cols |};
     dateColumn := dateColumn this; targetColumn := targetColumn this;
     controlColumns := controlColumns this |}.

Definition set_dateColumn (c : string) (this : WrapperObject) : WrapperObject :=
  {| model := model this; data := data this; numeric := numeric this;
     dateColumn := c; targetColumn := targetColumn this;
     controlColumns := controlColumns this |}.

Definition set_targetColumn (c : string) (this : WrapperObject) : WrapperObject :=
  {| model := model this; data := data this; numeric := numeric this;
     dateColumn := dateColumn this; targetColumn := c;
     controlColumns := controlColumns this |}.

Definition set_controlColumns (cols : list string) (this : WrapperObject)
    : WrapperObject :=
  {| model := model this; data := data this; numeric := numeric this;
     dateColumn := dateColumn this; targetColumn := targetColumn this;
     controlColumns := cols |}.

(** The object and the world a method runs in. *)
Definition Heap : Type := WrapperObject * World float.

Definition Method (A : Type) : Type := Heap -> outcome A * Heap.

Definition mret {A} (a : A) : Method A := fun h => (Return a, h).

Definition mbind {A B} (c : Method A) (k : A -> Method B) : Method B :=
  fun h => match c h with
           | (Return a, h') => k a h'
           | (Throw e, h') => (Throw e, h')
           end.

Definition mthrow {A} (e : JsError) : Method A := fun h => (Throw e, h).

(** [try { body } catch (error) { handler }] *)
Definition mtry {A} (body : Method A) (handler : JsError -> Method A) : Method A :=
  fun h => match body h with
           | (Return a, h') => (Return a, h')
           | (Throw e, h') => handler e h'
           end.

(** [this] *)
Definition this_object : Method WrapperObject := fun h => (Return (fst h), h).

(** [this.field = v], as one of the assignments above. *)
Definition assign (f : WrapperObject -> WrapperObject) : Method unit :=
  fun h => (Return tt, (f (fst h), snd h)).

(** A computation that touches the world only. *)
Definition in_world {A} (c : M float A) : Method A :=
  fun h => let '(o, w') := c (snd h) in (o, (fst h, w')).

(** A method that reads the object and does not assign to it. *)
Definition reading {A} (f : MeridianWrapper float -> M float A) : Method A :=
  fun h => let '(o, w') := f (numeric (fst h)) (snd h) in (o, (fst h, w')).

Declare Scope method_scope.
Delimit Scope method_scope with method.
Notation "x <- c ;; k" := (mbind c (fun x => k))
  (at level 61, c at next level, right associativity) : method_scope.
Notation "c ;;; k" := (mbind c (fun _ => k))
  (at level 61, right associativity) : method_scope.

(** The [TypeError] of [null.prop] and of [Object.values(undefined)]. *)
Definition TypeError_null (prop : string) : JsError :=
  {| name := "TypeError";
     message := "Cannot read properties of null (reading '" ++ prop ++ "')" |}.

Definition TypeError_convert : JsError :=
  {| name := "TypeError"; message := "Cannot convert undefined or null to object" |}.

Definition no_data_message : string := "No data loaded. Call load_data() first.".
Definition no_model_message : string := "No model built. Call build_model() first.".

(** Lines 21-35. *)
Definition load_data (data : option ModelData)
    (dateColumn targetColumn : option string)
    (channelColumns controlColumns : option (list string))
    : Method (option ModelData) :=
  let dateColumn := default dateColumn "date" in
  let targetColumn := default targetColumn "target" in
  let channelColumns := default channelColumns [] in
  let controlColumns := default controlColumns [] in
  mtry
    (assign (set_data data) ;;;
     assign (set_dateColumn dateColumn) ;;;
     assign (set_targetColumn targetColumn) ;;;
     cols <- (if (0 <? List.length channelColumns)%nat then mret channelColumns
              else match data with
                   | None => mthrow (TypeError_null "channels")
                   | Some d => mret (keys (default (channels d) []))
                   end) ;;
     assign (set_channelColumns cols) ;;;
     assign (set_controlColumns controlColumns) ;;;
     this <- this_object ;;
     mret (Lifecycle.data this))%method
    (fun error =>
       (in_world (console_error "Error loading data:" error) ;;;
        mthrow error)%method).

(** Lines 37-50. *)
Definition preprocess_data : Method ModelData :=
  mtry
    (this <- this_object ;;
     match Lifecycle.data this with
     | None => mthrow (Error no_data_message)
     | Some d => mret d
     end)%method
    (fun error =>
       (in_world (console_error "Error preprocessing data:" error) ;;;
        mthrow error)%method).

(** Lines 52-77. *)
Definition build_model (adstockMaxLag hillExponentBound : option float)
    (calibrationData : option ModelData) : Method Model :=
  let adstockMaxLag := default adstockMaxLag 4 in
  let hillExponentBound := default hillExponentBound 3 in
  mtry
    (this <- this_object ;;
     match Lifecycle.data this with
     | None => mthrow (Error no_data_message)
     | Some _ =>
         let m :=
           {| status := "built";
              params :=
                {| Lifecycle.adstockMaxLag := adstockMaxLag;
                   Lifecycle.hillExponentBound := hillExponentBound;
                   Lifecycle.calibrationData := calibrationData;
                   params_channels := channelColumns (numeric this);
                   params_target := Lifecycle.targetColumn this;
                   params_controls := Lifecycle.controlColumns this |} |} in
         assign (set_model (Some m)) ;;;
         mret m
     end)%method
    (fun error =>
       (in_world (console_error "Error building model:" error) ;;;
        mthrow error)%method).

(** [for (const x of xs) body] for a body that draws random numbers. *)
Fixpoint for_each {A S} (xs : list A) (body : A -> S -> M float S) (s : S)
    : M float S :=
  match xs with
  | [] => ret s
  | x :: xs' => (s' <- body x s ;; for_each xs' body s')%js
  end.

(** Line 92: ninety mock contribution values. *)
Definition mock_contribution : M float (list float) :=
  Array_from 90 (fun _ => r <- Math_random ;; ret (r * 2000 + 500))%js.

(** Lines 100-107: a mock ROI with its uncertainty. *)
Definition mock_roi : M float (RoiValue float) :=
  (r <- Math_random ;;
   let meanRoi := r * 4.5 + 0.5 in
   let stdRoi := meanRoi * lit_0_2 in
   ret {| mean := meanRoi;
          std := stdRoi;
          lower_bound := Math_max 0 (meanRoi - lit_1_96 * stdRoi);
          upper_bound := meanRoi + lit_1_96 * stdRoi |})%js.

(** Lines 88-118: the mock results for the channels. *)
Definition mock_results (channelColumns : list string) : M float (Results float) :=
  (channelContributions <-
     for_each channelColumns
       (fun channel channelContributions =>
          contribution <- mock_contribution ;;
          ret (set channel contribution channelContributions)) [] ;;
   roiValues <-
     for_each channelColumns
       (fun channel roiValues =>
          r <- mock_roi ;;
          ret (set channel r roiValues)) [] ;;
   r1 <- Math_random ;;
   r2 <- Math_random ;;
   ret {| channel_contributions := channelContributions;
          roi_values := roiValues;
          model_fit := {| r_squared := r1 * 0.25 + lit_0_7;
                          mape := r2 * lit_0_1 + lit_0_05 |} |})%js.

(** Lines 79-125; [iterations] and [chains] are not read. *)
Definition fit_model (iterations chains : option float) : Method (Results float) :=
  mtry
    (this <- this_object ;;
     match model this with
     | None => mthrow (Error no_model_message)
     | Some _ =>
         res <- in_world (mock_results (channelColumns (numeric this))) ;;
         assign (set_results (Some res)) ;;;
         mret res
     end)%method
    (fun error =>
       (in_world (console_error "Error fitting model:" error) ;;;
        mthrow error)%method).

(** The two numeric methods, as methods of the object. *)
Definition allocate (totalBudget : float)
    (constraints : option (obj (Constraint float))) : Method (obj float) :=
  reading (fun this => get_optimal_budget_allocation this totalBudget constraints).

Definition report : Method (ReportData float) :=
  reading generate_report_data.

(** *** The caller: the model route *)

(** [modelConfig] of the request body, as the route reads it after the data
    was fetched and processed. *)
Record ModelConfig : Type := {
  config_adstockMaxLag : option float;
  config_hillExponentBound : option float;
  optimizeBudget : bool;
  totalBudget : option float;
  budgetConstraints : option (obj (Constraint float))
}.

(** Route lines 72-73: the budget when none is requested, 1.1 times the sum
    of all values of all channels. *)
Definition default_budget (d : ModelData) : outcome float :=
  match channels d with
  | None => Throw TypeError_convert
  | Some chans =>
      Return (fold_left (fun sum channel => sum + fold_left PrimFloat.add channel 0)
                (values chans) 0 * lit_1_1)
  end.

(** Route lines 52-81: from [new MeridianWrapper()] to the report, on the
    processed [data].  (The request parsing, fetching and processing before
    it and the JSON response after it are input and output.) *)
Definition model_route (data : option ModelData) (modelConfig : option ModelConfig)
    : Method (Results float * ReportData float * option (obj float)) :=
  (assign (fun _ => new_MeridianWrapper) ;;;
   load_data data None None None None ;;;
   preprocess_data ;;;
   let adstockMaxLag :=
     or_else (match modelConfig with Some c => config_adstockMaxLag c | None => None end) 4 in
   let hillExponentBound :=
     or_else (match modelConfig with Some c => config_hillExponentBound c | None => None end) 3 in
   build_model (Some adstockMaxLag) (Some hillExponentBound) None ;;;
   modelResults <- fit_model None None ;;
   budgetAllocation <-
     match modelConfig with
     | Some c =>
         if optimizeBudget c then
           totalBudget <-
             match totalBudget c with
             | Some v =>
                 if truthy v then mret v
                 else match data with
                      | Some d => fun h => (default_budget d, h)
                      | None => mthrow (TypeError_null "channels")
                      end
             | None =>
                 match data with
                 | Some d => fun h => (default_budget d, h)
                 | None => mthrow (TypeError_null "channels")
                 end
             end ;;
           let constraints := default (budgetConstraints c) [] in
           a <- allocate totalBudget (Some constraints) ;;
           mret (Some a)
         else mret None
     | None => mret None
     end ;;
   reportData <- report ;;
   mret (modelResults, reportData, budgetAllocation))%method.

(** The columns [load_data] stores, when it gets that far: the ones given,
    or the names of [data.channels]. *)
Definition chosen_columns (data : option ModelData)
    (channelColumns : option (list string)) : option (list string) :=
  if (0 <? List.length (default channelColumns []))%nat
  then Some (default channelColumns [])
  else match data with
       | Some d => Some (keys (default (channels d) []))
       | None => None
       end.

(** *** Vocabulary for the mock results *)

(** What lines 92 and 100-107 make of one draw. *)
Definition contribution_of_draw (r : float) : float := r * 2000 + 500.

Definition roi_of_draw (r : float) : RoiValue float :=
  let meanRoi := r * 4.5 + 0.5 in
  let stdRoi := meanRoi * lit_0_2 in
  {| mean := meanRoi;
     std := stdRoi;
     lower_bound := Math_max 0 (meanRoi - lit_1_96 * stdRoi);
     upper_bound := meanRoi + lit_1_96 * stdRoi |}.

(** Results as [fit_model] builds them: two objects with the same channels,
    ninety values per series, each series and ROI entry made of draws of the
    given random source. *)
Definition mock_shaped (source : nat -> float) (res : Results float) : Prop :=
  wf (channel_contributions res)
  /\ wf (roi_values res)
  /\ (forall c, get c (channel_contributions res) = None
                <-> get c (roi_values res) = None)
  /\ (forall c series, get c (channel_contributions res) = Some series ->
        List.length series = 90%nat
        /\ forall x, In x series -> exists i, x = contribution_of_draw (source i))
  /\ (forall c r, get c (roi_values res) = Some r ->
        exists i, r = roi_of_draw (source i)).

(** What the object promises between calls. *)
Definition consistent (h : Heap) : Prop :=
  (results (numeric (fst h)) <> None -> model (fst h) <> None)
  /\ (forall m, model (fst h) = Some m -> status m = "built")
  /\ (forall res, results (numeric (fst h)) = Some res ->
        mock_shaped (random (snd h)) res).

(** Any call a client can make on the object. *)
Inductive call : Type :=
| Call_load_data (data : option ModelData) (dateColumn targetColumn : option string)
    (channelColumns controlColumns : option (list string))
| Call_preprocess_data
| Call_build_model (adstockMaxLag hillExponentBound : option float)
    (calibrationData : option ModelData)
| Call_fit_model (iterations chains : option float)
| Call_get_optimal_budget_allocation (totalBudget : float)
    (constraints : option (obj (Constraint float)))
| Call_generate_report_data.

(** The heap after a call, whether it returned or threw. *)
Definition after_call (c : call) (h : Heap) : Heap :=
  match c with
  | Call_load_data d dc tc cc ctl => snd (load_data d dc tc cc ctl h)
  | Call_preprocess_data => snd (preprocess_data h)
  | Call_build_model lag bound cal => snd (build_model lag bound cal h)
  | Call_fit_model it ch => snd (fit_model it ch h)
  | Call_get_optimal_budget_allocation b cs => snd (allocate b cs h)
  | Call_generate_report_data => snd (report h)
  end.

(** The heap after a sequence of calls on a new object. *)
Definition after_calls (cs : list call) (w : World float) : Heap :=
  fold_left (fun h c => after_call c h) cs (new_MeridianWrapper, w).

(** The body and the status of the route's JSON response. *)
Inductive ResponseBody : Type :=
| Created (message : string) (results : Results float) (reportData : ReportData float)
    (budgetAllocation : option (obj float))
| Failure (error : string).

Record NextResponse : Type := { body : ResponseBody; response_status : nat }.

(** Route lines 52-98: the pipeline inside the route's [try], its response
    and its [catch]. *)
Definition POST (data : option ModelData) (modelConfig : option ModelConfig)
    : Method NextResponse :=
  mtry
    (r <- model_route data modelConfig ;;
     match r with
     | (modelResults, reportData, budgetAllocation) =>
         mret {| body := Created "Marketing mix model created successfully"
                           modelResults reportData budgetAllocation;
                 response_status := 200 |}
     end)%method
    (fun error =>
       (in_world (console_error "Error creating marketing mix model:" error) ;;;
        mret {| body := Failure "Failed to create marketing mix model";
                response_status := 500 |})%method).

(** Whether the route computes the default budget: [optimizeBudget] is set
    and [totalBudget] is missing, 0 or NaN. *)
Definition default_budget_needed (modelConfig : option ModelConfig) : bool :=
  match modelConfig with
  | Some c =>
      optimizeBudget c
      && negb (match totalBudget c with Some v => truthy v | None => false end)
  | None => false
  end.


(** The object the model route has built when it calls [fit_model]. *)
Definition route_object (d : ModelData) (modelConfig : option ModelConfig)
    : WrapperObject :=
  let loaded :=
    set_controlColumns []
      (set_channelColumns (keys (default (channels d) []))
         (set_targetColumn "target"
            (set_dateColumn "date" (set_data (Some d) new_MeridianWrapper)))) in
  set_model
    (Some {| status := "built";
             params :=
               {| adstockMaxLag :=
                    or_else (match modelConfig with
                             | Some c => config_adstockMaxLag c
                             | None => None
                             end) 4;
                  hillExponentBound :=
                    or_else (match modelConfig with
                             | Some c => config_hillExponentBound c
                             | None => None
                             end) 3;
                  calibrationData := None;
                  params_channels := keys (default (channels d) []);
                  params_target := "target";
                  params_controls := [] |} |}) loaded.

(** The budget the route passes to the allocator, and what it gets back. *)
Definition route_budget (chans : obj (list float)) (c : ModelConfig) : float :=
  or_else (totalBudget c)
    (fold_left (fun sum channel => sum + fold_left PrimFloat.add channel 0)
       (values chans) 0 * lit_1_1).

Definition route_allocation (chans : obj (list float)) (modelConfig : option ModelConfig)
    (res : Results float) : option (obj float) :=
  match modelConfig with
  | Some c =>
      if optimizeBudget c then
        Some (normalize (route_budget chans c)
                (apply_constraints (Some (default (budgetConstraints c) []))
                   (initial_allocation (roi_means res)
                      (reduce_sum (values (roi_means res))) (route_budget chans c))))
      else None
  | None => None
  end.

End Lifecycle.

(* ===================================================================== *)
(** ** Facts about objects *)
(* ===================================================================== *)

Section ObjectFacts.

Context {V : Type}.
Implicit Types (o : obj V) (k : string) (v : V).

Lemma get_set_same k v o : get k (set k v o) = Some v.
Proof.
  induction o as [|[k' v'] o IH]; simpl.
  - now rewrite String.eqb_refl.
  - destruct (String.eqb k k') eqn:E; simpl; rewrite E; auto.
Qed.

Lemma get_set_other k k' v o : k <> k' -> get k' (set k v o) = get k' o.
Proof.
  intros Hne. induction o as [|[k0 v0] o IH]; simpl.
  - destruct (String.eqb k' k) eqn:E; auto.
    apply String.eqb_eq in E. congruence.
  - destruct (String.eqb k k0) eqn:E; simpl.
    + apply String.eqb_eq in E. subst k0.
      destruct (String.eqb k' k) eqn:E'; auto.
      apply String.eqb_eq in E'. congruence.
    + now rewrite IH.
Qed.

Lemma get_In k v o : get k o = Some v -> In (k, v) o.
Proof.
  induction o as [|[k' v'] o IH]; simpl; [discriminate|].
  destruct (String.eqb k k') eqn:E; intros Hg.
  - apply String.eqb_eq in E. left. congruence.
  - right. auto.
Qed.

Lemma get_None_keys k o : get k o = None <-> ~ In k (keys o).
Proof.
  induction o as [|[k' v'] o IH]; simpl; [tauto|].
  destruct (String.eqb k k') eqn:E.
  - apply String.eqb_eq in E. subst. split; [discriminate | tauto].
  - apply String.eqb_neq in E. rewrite IH. intuition congruence.
Qed.

Lemma In_keys_get k o : In k (keys o) -> exists v, get k o = Some v.
Proof.
  intros Hin. destruct (get k o) eqn:E; eauto.
  apply get_None_keys in E. contradiction.
Qed.

Lemma wf_In_get k v o : wf o -> In (k, v) o -> get k o = Some v.
Proof.
  unfold wf, keys. induction o as [|[k' v'] o IH]; simpl; [tauto|].
  intros Hnd [Heq | Hin]; inversion Hnd as [|? ? Hni Hnd']; subst.
  - inversion Heq; subst. now rewrite String.eqb_refl.
  - destruct (String.eqb k k') eqn:E; auto.
    apply String.eqb_eq in E. subst k'.
    exfalso. apply Hni. change k with (fst (k, v)). now apply in_map.
Qed.

(** Assigning to a key the object has keeps the keys and their order. *)
Lemma keys_set_has k v o : has k o = true -> keys (set k v o) = keys o.
Proof.
  unfold has, keys. induction o as [|[k' v'] o IH]; simpl; [discriminate|].
  destruct (String.eqb k k') eqn:E; simpl; auto.
  intros Hh. now rewrite IH.
Qed.

(** Assigning to a new key appends it. *)
Lemma set_fresh k v o : get k o = None -> set k v o = o ++ [(k, v)].
Proof.
  induction o as [|[k' v'] o IH]; simpl; auto.
  destruct (String.eqb k k'); [discriminate|].
  intros Hg. now rewrite IH.
Qed.

(** What an object holds after an assignment. *)
Lemma In_set k v k' v' o :
  In (k', v') (set k v o) -> (k' = k /\ v' = v) \/ In (k', v') o.
Proof.
  induction o as [|[k0 v0] o IH]; simpl.
  - intros [Heq | []]. inversion Heq. auto.
  - destruct (String.eqb k k0) eqn:E; simpl.
    + apply String.eqb_eq in E. subst k0.
      intros [Heq | Hin]; [inversion Heq; auto | auto].
    + intros [Heq | Hin]; [auto | ].
      destruct (IH Hin); auto.
Qed.



End ObjectFacts.

(** A loop that assigns [f k] to every key [k] of a duplicate-free list
    appends these entries in order. *)
Lemma fold_set_fresh {V} (f : string -> V) (ks : list string) (o : obj V) :
  NoDup (keys o ++ ks) ->
  fold_left (fun o k => set k (f k) o) ks o = o ++ map (fun k => (k, f k)) ks.
Proof.
  revert o. induction ks as [|k ks IH]; intros o Hnd; simpl.
  - now rewrite app_nil_r.
  - assert (Hfresh : get k o = None).
    { apply get_None_keys. intros Hin.
      apply NoDup_remove_2 in Hnd. apply Hnd. apply in_or_app. now left. }
    rewrite (set_fresh _ _ _ Hfresh), IH.
    + now rewrite <- app_assoc.
    + unfold keys in *. rewrite map_app. simpl. now rewrite <- app_assoc.
Qed.

(** [for (const k in src) acc[k] = f(src[k])] from an empty [acc] copies
    [src] through [f]. *)
Lemma for_in_copy {V W} (f : V -> W) (src : obj V) :
  wf src ->
  for_in src
    (fun k acc => match get k src with
                  | Some v => set k (f v) acc
                  | None => acc
                  end) [] = map (fun kv => (fst kv, f (snd kv))) src.
Proof.
  intros Hwf. unfold for_in.
  assert (Hstep : forall ks (acc : obj W) (d : W),
             (forall k, In k ks -> In k (keys src)) ->
             fold_left (fun s k => match get k src with
                                   | Some v => set k (f v) s
                                   | None => s
                                   end) ks acc
             = fold_left (fun o k => set k (match get k src with
                                            | Some v => f v
                                            | None => d
                                            end) o) ks acc).
  { induction ks as [|k ks IH]; intros acc d Hsub; simpl; auto.
    destruct (In_keys_get k src) as [v Hv]; [apply Hsub; now left|].
    rewrite Hv. apply IH. intros k' Hk'. apply Hsub. now right. }
  destruct src as [|[k0 v0] src0] eqn:Esrc; [reflexivity|].
  rewrite <- Esrc in *.
  rewrite (Hstep (keys src) [] (f v0)) by auto.
  rewrite fold_set_fresh by exact Hwf. simpl.
  unfold keys. rewrite map_map. apply map_ext_in.
  intros [k v] Hin. simpl. now rewrite (wf_In_get _ _ _ Hwf Hin).
Qed.


(** A property of every value an object holds survives an assignment of a
    value that has it. *)
Lemma Forall_set {V} (P : V -> Prop) k v (o : obj V) :
  P v -> Forall (fun kv => P (snd kv)) o -> Forall (fun kv => P (snd kv)) (set k v o).
Proof.
  intros Hv Ho. apply Forall_forall. intros [k' v'] Hin.
  destruct (In_set _ _ _ _ _ Hin) as [[_ ->] | Hin']; [exact Hv|].
  apply (proj1 (Forall_forall _ _) Ho _ Hin').
Qed.

Lemma fold_left_invariant {A B} (I : A -> Prop) (f : A -> B -> A) (l : list B) (a : A) :
  I a -> (forall a b, In b l -> I a -> I (f a b)) -> I (fold_left f l a).
Proof.
  revert a. induction l as [|b l IH]; intros a Ha Hstep; simpl; auto.
  apply IH.
  - apply Hstep; [now left | exact Ha].
  - intros a' b' Hin. apply Hstep. now right.
Qed.

(* ===================================================================== *)
(** ** The allocator, step by step *)
(* ===================================================================== *)

Section AllocatorFacts.

Context {num : Type} `{Number num}.
Implicit Types (allocation : obj num) (totalBudget : num).

(** With results present the method is its straight-line body: it returns
    and touches nothing outside. *)
Lemma allocation_with_results this res totalBudget constraints (w : World num) :
  results this = Some res ->
  get_optimal_budget_allocation this totalBudget constraints w
  = (Return
       (normalize totalBudget
          (apply_constraints constraints
             (initial_allocation (roi_means res)
                (reduce_sum (values (roi_means res))) totalBudget))),
     w).
Proof.
  intros Hres. unfold get_optimal_budget_allocation, try_catch.
  now rewrite Hres.
Qed.

(** Without results the guard throws, the handler logs and rethrows. *)
Lemma allocation_without_results this totalBudget constraints (w : World num) :
  results this = None ->
  get_optimal_budget_allocation this totalBudget constraints w
  = (Throw (Error no_results_message),
     {| random := random w; drawn := drawn w;
        console := console w ++
          [("Error getting optimal budget allocation:", Error no_results_message)] |}).
Proof.
  intros Hres. unfold get_optimal_budget_allocation, try_catch.
  now rewrite Hres.
Qed.

Lemma roi_means_map (res : Results num) :
  wf (roi_values res) ->
  roi_means res = map (fun kv => (fst kv, mean (snd kv))) (roi_values res).
Proof. intros Hwf. unfold roi_means. now apply for_in_copy. Qed.

Lemma initial_allocation_map (roiMeans : obj num) totalRoi totalBudget :
  wf roiMeans ->
  initial_allocation roiMeans totalRoi totalBudget
  = map (fun kv => (fst kv, mul (div (snd kv) totalRoi) totalBudget)) roiMeans.
Proof.
  intros Hwf. unfold initial_allocation.
  now apply (for_in_copy (fun roi => mul (div roi totalRoi) totalBudget)).
Qed.




End AllocatorFacts.

(* ===================================================================== *)
(** ** Amounts that are not negative *)
(* ===================================================================== *)

(** The allocator's arithmetic keeps a class [P] of numbers ("not negative")
    as soon as the operations do; [P0] is the class of the running totals
    (a sum that starts at the literal 0). *)
Section SignPreservation.

Context {num : Type} `{Number num}.
Variables P P0 : num -> Prop.
Hypothesis P0_zero : P0 (lit 0).
Hypothesis P0_add : forall a b, P0 a -> P b -> P0 (add a b).
Hypothesis P_mul : forall a b, P a -> P b -> P (mul a b).
Hypothesis P_div : forall a b, P a -> P0 b -> P (div a b).

Lemma In_all_P k a (o : obj num) : all_values P o -> In (k, a) o -> P a.
Proof. intros Ho Hin. exact (proj1 (Forall_forall _ _) Ho _ Hin). Qed.

Lemma reduce_sum_P0 (o : obj num) : all_values P o -> P0 (reduce_sum (values o)).
Proof.
  intros Ho. unfold reduce_sum.
  apply fold_left_invariant; [exact P0_zero|].
  intros a b Hin Ha. apply P0_add; [exact Ha|].
  unfold values in Hin. apply in_map_iff in Hin as [[k v] [<- Hin]].
  exact (In_all_P _ _ _ Ho Hin).
Qed.

Lemma roi_means_P (res : Results num) :
  Forall (fun kv => P (mean (snd kv))) (roi_values res) -> all_values P (roi_means res).
Proof.
  intros Hroi. unfold roi_means, for_in.
  apply fold_left_invariant; [constructor|].
  intros a k _ Ha. destruct (get k (roi_values res)) as [r|] eqn:Hg; [|exact Ha].
  apply Forall_set; [|exact Ha].
  exact (proj1 (Forall_forall _ _) Hroi _ (get_In _ _ _ Hg)).
Qed.

Lemma initial_allocation_P (roiMeans : obj num) totalRoi totalBudget :
  all_values P roiMeans -> P0 totalRoi -> P totalBudget ->
  all_values P (initial_allocation roiMeans totalRoi totalBudget).
Proof.
  intros Hm Ht Hb. unfold initial_allocation, for_in.
  apply fold_left_invariant; [constructor|].
  intros a k _ Ha. destruct (get k roiMeans) as [roi|] eqn:Hg; [|exact Ha].
  apply Forall_set; [|exact Ha].
  apply P_mul; [|exact Hb]. apply P_div; [|exact Ht].
  exact (In_all_P _ _ _ Hm (get_In _ _ _ Hg)).
Qed.

Lemma apply_constraint_P channel c (allocation : obj num) :
  bounds_in P c -> all_values P allocation -> all_values P (apply_constraint channel c allocation).
Proof.
  intros [Hlo Hhi] Ha. unfold apply_constraint.
  destruct (has channel allocation); [|exact Ha].
  assert (H1 : all_values P match min c, get channel allocation with
                     | Some lo, Some a =>
                         if lt a lo then set channel lo allocation else allocation
                     | _, _ => allocation
                     end).
  { destruct (min c) as [lo|]; [|exact Ha].
    destruct (get channel allocation) as [a|]; [|exact Ha].
    destruct (lt a lo); [|exact Ha].
    apply Forall_set; auto. }
  revert H1. generalize (match min c, get channel allocation with
                         | Some lo, Some a =>
                             if lt a lo then set channel lo allocation else allocation
                         | _, _ => allocation
                         end).
  intros allocation1 H1.
  destruct (max c) as [hi|]; [|exact H1].
  destruct (get channel allocation1) as [a|]; [|exact H1].
  destruct (gt a hi); [|exact H1].
  apply Forall_set; auto.
Qed.

Lemma apply_constraints_P constraints (allocation : obj num) :
  (forall cs, constraints = Some cs -> Forall (fun kc => bounds_in P (snd kc)) cs) ->
  all_values P allocation -> all_values P (apply_constraints constraints allocation).
Proof.
  intros Hcs Ha. destruct constraints as [cs|]; simpl; [|exact Ha].
  specialize (Hcs cs eq_refl). unfold for_in.
  apply fold_left_invariant; [exact Ha|].
  intros a k _ Hinv. destruct (get k cs) as [c|] eqn:Hg; [|exact Hinv].
  apply apply_constraint_P; [|exact Hinv].
  exact (proj1 (Forall_forall _ _) Hcs _ (get_In _ _ _ Hg)).
Qed.

Lemma normalize_P totalBudget (allocation : obj num) :
  P totalBudget -> all_values P allocation -> all_values P (normalize totalBudget allocation).
Proof.
  intros Hb Ha. unfold normalize.
  destruct (strict_ne _ _); [|exact Ha].
  unfold for_in. apply fold_left_invariant; [exact Ha|].
  intros a k _ Hinv. destruct (get k a) as [v|] eqn:Hg; [|exact Hinv].
  apply Forall_set; [|exact Hinv].
  apply P_mul; [exact (In_all_P _ _ _ Hinv (get_In _ _ _ Hg))|].
  apply P_div; [exact Hb | now apply reduce_sum_P0].
Qed.

(** Every amount of the returned allocation is in [P] when every ROI mean,
    the budget and every supplied bound is. *)
Lemma allocation_P (res : Results num) totalBudget constraints :
  Forall (fun kv => P (mean (snd kv))) (roi_values res) ->
  P totalBudget ->
  (forall cs, constraints = Some cs -> Forall (fun kc => bounds_in P (snd kc)) cs) ->
  all_values P (normalize totalBudget
           (apply_constraints constraints
              (initial_allocation (roi_means res)
                 (reduce_sum (values (roi_means res))) totalBudget))).
Proof.
  intros Hroi Hb Hcs.
  apply normalize_P; [exact Hb|].
  apply apply_constraints_P; [exact Hcs|].
  apply initial_allocation_P; [now apply roi_means_P | | exact Hb].
  apply reduce_sum_P0. now apply roi_means_P.
Qed.

End SignPreservation.

Module FloatFacts.

Import FloatSign.
Local Open Scope float_scope.

Lemma Prim2SF_zero : Prim2SF 0 = S754_zero false.
Proof. reflexivity. Qed.

Lemma not_negative_spec x : not_negative x <-> sf_not_negative (Prim2SF x) = true.
Proof.
  unfold not_negative. rewrite FloatAxioms.ltb_spec, Prim2SF_zero.
  destruct (Prim2SF x) as [[|]|[|]| |[|] m e];
    cbv [SFltb SFcompare sf_not_negative negb]; intuition congruence.
Qed.

(** Rounding keeps the sign it is given, or yields NaN. *)
Lemma binary_round_aux_sign s m e l :
  match binary_round_aux prec emax s m e l with
  | S754_nan => True
  | S754_zero s' | S754_infinity s' | S754_finite s' _ _ => s' = s
  end.
Proof.
  unfold binary_round_aux.
  destruct (shr_fexp prec emax m e l) as [mrs' e'].
  destruct (shr_fexp prec emax _ e' loc_Exact) as [mrs'' e''].
  destruct (shr_m mrs''); [reflexivity | | exact I].
  destruct (Z.leb e'' (emax - prec)); reflexivity.
Qed.

Lemma binary_round_aux_total m e l :
  sf_total (binary_round_aux prec emax false m e l) = true.
Proof.
  pose proof (binary_round_aux_sign false m e l) as Hs.
  destruct (binary_round_aux prec emax false m e l); simpl; try subst; reflexivity.
Qed.

Lemma SFadd_total x y :
  sf_total x = true -> sf_not_negative y = true -> sf_total (SF64add x y) = true.
Proof.
  destruct x as [[|]|[|]| |[|] mx ex], y as [[|]|[|]| |[|] my ey];
    simpl; try discriminate; try reflexivity.
  intros _ _. unfold SF64add, SFadd, cond_Zopp, binary_normalize.
  cbn [Z.add]. unfold binary_round.
  destruct (shl_align _ _ _) as [mz ez].
  apply binary_round_aux_total.
Qed.

Lemma SFmul_not_negative x y :
  sf_not_negative x = true -> sf_not_negative y = true ->
  sf_not_negative (SF64mul x y) = true.
Proof.
  destruct x as [[|]|[|]| |[|] mx ex], y as [[|]|[|]| |[|] my ey];
    simpl; try discriminate; try reflexivity.
  intros _ _.
  pose proof (binary_round_aux_total (Z.pos (mx * my)) (ex + ey) loc_Exact) as Ht.
  destruct (binary_round_aux prec emax false _ _ _) as [[|]|[|]| |[|] m e];
    simpl in *; congruence.
Qed.

Lemma SFdiv_not_negative x y :
  sf_not_negative x = true -> sf_total y = true ->
  sf_not_negative (SF64div x y) = true.
Proof.
  destruct x as [[|]|[|]| |[|] mx ex], y as [[|]|[|]| |[|] my ey];
    simpl; try discriminate; try reflexivity.
  intros _ _. unfold SF64div, SFdiv.
  destruct (SFdiv_core_binary _ _ _ _ _ _) as [[mz ez] lz]. simpl xorb.
  pose proof (binary_round_aux_total mz ez lz) as Ht.
  destruct (binary_round_aux prec emax false _ _ _) as [[|]|[|]| |[|] m e];
    simpl in *; congruence.
Qed.

Lemma lit_zero_total : total_like (lit 0).
Proof. reflexivity. Qed.

Lemma add_total a b : total_like a -> not_negative b -> total_like (add a b).
Proof.
  unfold total_like. rewrite not_negative_spec. simpl add.
  rewrite add_spec. apply SFadd_total.
Qed.

Lemma mul_not_negative a b : not_negative a -> not_negative b -> not_negative (mul a b).
Proof.
  rewrite !not_negative_spec. simpl mul. rewrite mul_spec. apply SFmul_not_negative.
Qed.

Lemma div_not_negative a b : not_negative a -> total_like b -> not_negative (div a b).
Proof.
  unfold total_like. rewrite !not_negative_spec. simpl div.
  rewrite div_spec. apply SFdiv_not_negative.
Qed.

End FloatFacts.

(* ===================================================================== *)
(** ** The aggregator, step by step *)
(* ===================================================================== *)

Section AggregatorFacts.

Context {num : Type} `{Number num}.
Implicit Types (res : Results num) (rd : ReportData num) (cols : list string).

Lemma Array_from_random (g : num -> num) n :
  forall i (w : World num),
    Array_from_aux n i (fun _ => r <- Math_random ;; ret (g r)) w
    = (Return (next_draws g n w), after_draws n w).
Proof.
  unfold next_draws, after_draws.
  induction n as [|n IH]; intros i w; simpl.
  - unfold ret. destruct w; simpl. now rewrite Nat.add_0_r.
  - unfold bind at 1. unfold bind at 1. unfold Math_random at 1. unfold ret at 1.
    unfold bind. rewrite IH. simpl. unfold ret. f_equal.
    + f_equal. f_equal; [now rewrite Nat.add_0_r|].
      rewrite <- seq_shift, map_map. apply map_ext. intros j.
      now rewrite Nat.add_succ_r.
    + f_equal. now rewrite Nat.add_succ_r.
Qed.

(** With results present the method draws the ninety [target] values, runs
    the two loops, and logs what they throw. *)
Lemma report_with_results this res (w : World num) :
  results this = Some res ->
  generate_report_data this w
  = let g r := add (mul r (lit 10000)) (lit 5000) in
    match channel_metrics res (channelColumns this)
            (initial_report this res (next_draws g 90 w)) with
    | Return rep => (Return rep, after_draws 90 w)
    | Throw e =>
        (Throw e, logged "Error generating report data:" e (after_draws 90 w))
    end.
Proof.
  intros Hres. unfold generate_report_data, try_catch. rewrite Hres.
  unfold bind at 1. unfold Array_from. rewrite Array_from_random.
  unfold lift, initial_report.
  destruct (channel_metrics _ _ _); reflexivity.
Qed.

Lemma report_without_results this (w : World num) :
  results this = None ->
  generate_report_data this w
  = (Throw (Error no_results_message),
     logged "Error generating report data:" (Error no_results_message) w).
Proof.
  intros Hres. unfold generate_report_data, try_catch. now rewrite Hres.
Qed.

(** *** The loops do not read [target] *)




(** *** What the loops store *)

(** The first loop, when every column has its data: the running total and,
    for every name, what [channel_performance] then holds. *)
Lemma performance_loop res cols :
  (forall c, In c cols -> present res c) ->
  forall tot rd, exists rd',
    for_of cols (performance_step res) (tot, rd)
    = Return (fold_left add (map (channel_total res) cols) tot, rd')
    /\ model_summary rd' = model_summary rd
    /\ dates (time_series_data rd') = dates (time_series_data rd)
    /\ target (time_series_data rd') = target (time_series_data rd)
    /\ (forall k, get k (channel_performance rd')
                  = if in_dec string_dec k cols then performance0 res k
                    else get k (channel_performance rd))
    /\ (forall k, get k (series_channel_contributions (time_series_data rd'))
                  = if in_dec string_dec k cols
                    then get k (channel_contributions res)
                    else get k (series_channel_contributions (time_series_data rd)))
    /\ (NoDup (keys (channel_performance rd) ++ cols) ->
        keys (channel_performance rd') = keys (channel_performance rd) ++ cols).
Proof.
  induction cols as [|c cols IH]; intros Hp tot rd.
  - exists rd. cbn [for_of map fold_left]. repeat split; auto.
    intros _. now rewrite app_nil_r.
  - destruct (Hp c (or_introl eq_refl)) as (series & r & Hs & Hr).
    cbn [for_of]. unfold performance_step at 1. rewrite Hs, Hr.
    match goal with
    | |- context [for_of cols _ (?t, ?d)] =>
        destruct (IH (fun c' Hc' => Hp c' (or_intror Hc')) t d)
          as (rd' & Hrun & Hms & Hd & Ht & Hcp & Hsc & Hk)
    end.
    exists rd'. rewrite Hrun. cbn [map fold_left].
    unfold channel_total at 3. rewrite Hs.
    repeat split; auto.
    + intros k. rewrite Hcp. cbn [set_series set_channel_performance channel_performance].
      destruct (in_dec string_dec k cols) as [Hin|Hni];
        destruct (in_dec string_dec k (c :: cols)) as [Hin'|Hni']; auto.
      * exfalso. apply Hni'. now right.
      * destruct Hin' as [<-|Hin']; [|contradiction].
        rewrite get_set_same. unfold performance0. now rewrite Hs, Hr.
      * apply get_set_other. intros ->. apply Hni'. now left.
    + intros k. rewrite Hsc.
      cbn [set_series set_channel_performance time_series_data
           series_channel_contributions].
      destruct (in_dec string_dec k cols) as [Hin|Hni];
        destruct (in_dec string_dec k (c :: cols)) as [Hin'|Hni']; auto.
      * exfalso. apply Hni'. now right.
      * destruct Hin' as [<-|Hin']; [|contradiction].
        now rewrite get_set_same.
      * apply get_set_other. intros ->. apply Hni'. now left.
    + intros Hnd.
      cbn [set_series set_channel_performance channel_performance] in Hk.
      assert (Hfresh : get c (channel_performance rd) = None).
      { apply get_None_keys. intros Hin. apply NoDup_remove_2 in Hnd.
        apply Hnd. apply in_or_app. now left. }
      rewrite (set_fresh _ _ _ Hfresh) in Hk.
      unfold keys in Hk |- *. rewrite map_app in Hk. cbn [map fst] in Hk.
      rewrite <- app_assoc in Hk. apply Hk. exact Hnd.
Qed.

(** The second loop, when [channel_performance] has every column. *)
Lemma percentage_loop (total : num) cols :
  forall rd,
    (forall c, In c cols -> get c (channel_performance rd) <> None) ->
    exists rd',
      for_of cols (percentage_step total) rd = Return rd'
      /\ model_summary rd' = model_summary rd
      /\ time_series_data rd' = time_series_data rd
      /\ (forall k, get k (channel_performance rd')
                    = if in_dec string_dec k cols
                      then option_map (finalize total) (get k (channel_performance rd))
                      else get k (channel_performance rd))
      /\ keys (channel_performance rd') = keys (channel_performance rd).
Proof.
  induction cols as [|c cols IH]; intros rd Hp.
  - exists rd. cbn [for_of]. repeat split; auto.
  - cbn [for_of]. unfold percentage_step at 1.
    destruct (get c (channel_performance rd)) as [p|] eqn:Hc;
      [|exfalso; now apply (Hp c (or_introl eq_refl))].
    fold (finalize total p).
    set (rd1 := set_channel_performance c (finalize total p) rd).
    assert (Hget1 : forall k, get k (channel_performance rd1)
                              = if string_dec k c then Some (finalize total p)
                                else get k (channel_performance rd)).
    { intros k. unfold rd1. cbn [set_channel_performance channel_performance].
      destruct (string_dec k c) as [->|Hne]; [apply get_set_same|].
      apply get_set_other. congruence. }
    destruct (IH rd1) as (rd' & Hrun & Hms & Hts & Hcp & Hk).
    { intros c' Hc'. rewrite Hget1. destruct (string_dec c' c); [discriminate|].
      apply Hp. now right. }
    exists rd'. rewrite Hrun. repeat split; auto.
    + intros k. rewrite Hcp, Hget1.
      destruct (in_dec string_dec k cols) as [Hin|Hni];
        destruct (in_dec string_dec k (c :: cols)) as [Hin'|Hni'];
        destruct (string_dec k c) as [->|Hne]; auto.
      * now rewrite Hc.
      * exfalso. apply Hni'. now right.
      * exfalso. apply Hni'. now right.
      * now rewrite Hc.
      * destruct Hin' as [Heq|Hin']; [congruence | contradiction].
      * exfalso. apply Hni'. now left.
    + rewrite Hk. unfold rd1. cbn [set_channel_performance channel_performance].
      apply keys_set_has. unfold has. now rewrite Hc.
Qed.

(** Both loops: the aggregate for columns that all have their data. *)
Lemma channel_metrics_present res cols rd :
  (forall c, In c cols -> present res c) ->
  channel_performance rd = [] ->
  exists rep,
    channel_metrics res cols rd = Return rep
    /\ model_summary rep = model_summary rd
    /\ dates (time_series_data rep) = dates (time_series_data rd)
    /\ target (time_series_data rep) = target (time_series_data rd)
    /\ (forall k, get k (channel_performance rep)
                  = if in_dec string_dec k cols
                    then performance res (grand_total res cols) k
                    else None)
    /\ (forall k, In k cols ->
                  get k (series_channel_contributions (time_series_data rep))
                  = get k (channel_contributions res))
    /\ (NoDup cols -> keys (channel_performance rep) = cols).
Proof.
  intros Hp Hempty. unfold channel_metrics.
  destruct (performance_loop res cols Hp (lit 0) rd)
    as (rd1 & Hrun1 & Hms1 & Hd1 & Ht1 & Hcp1 & Hsc1 & Hk1).
  rewrite Hrun1. fold (grand_total res cols).
  assert (Hhas : forall c, In c cols -> get c (channel_performance rd1) <> None).
  { intros c Hc. rewrite Hcp1. destruct (in_dec string_dec c cols); [|contradiction].
    destruct (Hp c Hc) as (s & r & Hs & Hr). unfold performance0.
    rewrite Hs, Hr. discriminate. }
  destruct (percentage_loop (grand_total res cols) cols rd1 Hhas)
    as (rep & Hrun2 & Hms2 & Hts2 & Hcp2 & Hk2).
  exists rep. rewrite Hrun2. repeat split.
  - congruence.
  - rewrite Hts2. exact Hd1.
  - rewrite Hts2. exact Ht1.
  - intros k. rewrite Hcp2, Hcp1.
    destruct (in_dec string_dec k cols); [reflexivity|].
    rewrite Hempty. reflexivity.
  - intros k Hk. rewrite Hts2, Hsc1.
    destruct (in_dec string_dec k cols); [reflexivity | contradiction].
  - intros Hnd. rewrite Hk2, Hk1; rewrite Hempty; auto.
Qed.

End AggregatorFacts.

(* ===================================================================== *)
(** ** Zero totals on doubles, exact sums on rationals *)
(* ===================================================================== *)

Module ZeroFacts.

Local Open Scope float_scope.

(** [x === 0] holds for the two zeros only. *)
Lemma strict_eq_zero x : (x =? 0) = true -> x = zero \/ x = neg_zero.
Proof.
  rewrite FloatAxioms.eqb_spec, FloatFacts.Prim2SF_zero. intros Heq.
  rewrite <- (SF2Prim_Prim2SF x).
  destruct (Prim2SF x) as [[|]|[|]| |[|] m e];
    cbv [SFeqb SFcompare] in Heq; try discriminate; [right | left]; reflexivity.
Qed.

(** A running total that starts at 0 and adds zeros stays +0. *)
Lemma sum_of_zeros (xs : list float) :
  (forall x, In x xs -> x = zero \/ x = neg_zero) ->
  fold_left add xs (lit 0) = zero.
Proof.
  change (lit 0 : float) with zero.
  induction xs as [|x xs IH]; intros Hz; [reflexivity|].
  cbn [fold_left].
  destruct (Hz x (or_introl eq_refl)) as [-> | ->];
    (change (add zero zero) with zero || change (add zero neg_zero) with zero);
    apply IH; intros y Hy; apply Hz; now right.
Qed.

(** 0/0 is NaN, for either zero as numerator. *)
Lemma zero_div_zero x : x = zero \/ x = neg_zero -> div x zero = nan.
Proof. intros [-> | ->]; reflexivity. Qed.

End ZeroFacts.

Module ExactFacts.

Local Open Scope Q_scope.



End ExactFacts.


(* ===================================================================== *)
(** ** The clamp pass *)
(* ===================================================================== *)

Section ClampFacts.

Context {num : Type} `{Number num}.
Hypothesis lt_irrefl : forall x : num, lt x x = false.

Lemma apply_constraint_same channel c (allocation : obj num) a :
  get channel allocation = Some a ->
  get channel (apply_constraint channel c allocation) = Some (clamp c a).
Proof.
  intros Hg. unfold apply_constraint, has, clamp. rewrite Hg.
  destruct (min c) as [lo|].
  - destruct (lt a lo).
    + rewrite get_set_same. destruct (max c) as [hi|]; [|apply get_set_same].
      destruct (gt lo hi); [|apply get_set_same]. apply get_set_same.
    + rewrite Hg. destruct (max c) as [hi|]; [|exact Hg].
      destruct (gt a hi); [apply get_set_same | exact Hg].
  - rewrite Hg. destruct (max c) as [hi|]; [|exact Hg].
    destruct (gt a hi); [apply get_set_same | exact Hg].
Qed.

Lemma apply_constraint_other channel channel' c (allocation : obj num) :
  channel <> channel' ->
  get channel' (apply_constraint channel c allocation) = get channel' allocation.
Proof.
  intros Hne. unfold apply_constraint.
  destruct (has channel allocation); [|reflexivity].
  assert (H1 : get channel'
                 match min c, get channel allocation with
                 | Some lo, Some a =>
                     if lt a lo then set channel lo allocation else allocation
                 | _, _ => allocation
                 end = get channel' allocation).
  { destruct (min c) as [lo|]; [|reflexivity].
    destruct (get channel allocation) as [a|]; [|reflexivity].
    destruct (lt a lo); [|reflexivity]. now apply get_set_other. }
  revert H1. generalize (match min c, get channel allocation with
                         | Some lo, Some a =>
                             if lt a lo then set channel lo allocation else allocation
                         | _, _ => allocation
                         end).
  intros allocation1 H1.
  destruct (max c) as [hi|]; [|exact H1].
  destruct (get channel allocation1) as [a|]; [|exact H1].
  destruct (gt a hi); [|exact H1].
  rewrite get_set_other by exact Hne. exact H1.
Qed.

(** A clamped amount is within the bounds that were supplied, when the
    maximum is not below the minimum. *)
Lemma clamp_within (c : Constraint num) (a : num) :
  (forall lo hi, min c = Some lo -> max c = Some hi -> lt hi lo = false) ->
  (forall lo, min c = Some lo -> lt (clamp c a) lo = false) /\
  (forall hi, max c = Some hi -> gt (clamp c a) hi = false).
Proof.
  intros Hord. unfold clamp, gt.
  destruct (min c) as [lo|], (max c) as [hi|]; split;
    intros b Hb; inversion Hb; subst b; clear Hb.
  - pose proof (Hord lo hi eq_refl eq_refl) as Hlh.
    destruct (lt a lo) eqn:E1.
    + destruct (lt hi lo) eqn:E2; [discriminate | apply lt_irrefl].
    + destruct (lt hi a) eqn:E2; [exact Hlh | exact E1].
  - destruct (lt a lo) eqn:E1.
    + destruct (lt hi lo) eqn:E2; [apply lt_irrefl | exact E2].
    + destruct (lt hi a) eqn:E2; [apply lt_irrefl | exact E2].
  - destruct (lt a lo) eqn:E1; [apply lt_irrefl | exact E1].
  - destruct (lt hi a) eqn:E2; [apply lt_irrefl | exact E2].
Qed.

(** After the constraint loop, a constrained channel of the allocation
    holds its clamped seed. *)
Lemma apply_constraints_clamps (cs : obj (Constraint num)) (allocation : obj num)
    channel c a :
  wf cs ->
  get channel cs = Some c ->
  get channel allocation = Some a ->
  get channel (apply_constraints (Some cs) allocation) = Some (clamp c a).
Proof.
  intros Hwf Hc Ha. cbn [apply_constraints]. unfold for_in.
  assert (Hin : In channel (keys cs)).
  { destruct (in_dec string_dec channel (keys cs)) as [Hin|Hni]; [exact Hin|].
    apply get_None_keys in Hni. congruence. }
  revert Hwf Hin. unfold wf. generalize (keys cs) as ks.
  assert (Hrest : forall ks (al : obj num),
             ~ In channel ks ->
             get channel
               (fold_left (fun s k => match get k cs with
                                      | Some c0 => apply_constraint k c0 s
                                      | None => s
                                      end) ks al)
             = get channel al).
  { induction ks as [|k ks IH]; intros al Hni; cbn [fold_left]; [reflexivity|].
    rewrite IH by (intros Hin; apply Hni; now right).
    destruct (get k cs) as [c0|]; [|reflexivity].
    apply apply_constraint_other. intros ->. apply Hni. now left. }
  intros ks. revert allocation Ha.
  induction ks as [|k ks IH]; intros allocation Ha Hnd Hin; [contradiction|].
  cbn [fold_left]. inversion Hnd as [|? ? Hni Hnd']; subst.
  destruct (string_dec k channel) as [->|Hne].
  - rewrite Hc, Hrest by exact Hni. now apply apply_constraint_same.
  - destruct Hin as [Heq|Hin]; [contradiction|].
    apply IH; auto.
    destruct (get k cs) as [c0|]; [|exact Ha].
    rewrite apply_constraint_other by exact Hne. exact Ha.
Qed.

End ClampFacts.

Lemma float_lt_irrefl (x : float) : lt x x = false.
Proof.
  cbn [lt Number_float]. rewrite FloatAxioms.ltb_spec.
  destruct (Prim2SF x) as [[|]|[|]| |[|] m e]; cbv [SFltb SFcompare]; try reflexivity.
  - rewrite Z.compare_refl, Pos.compare_cont_refl. reflexivity.
  - rewrite Z.compare_refl, Pos.compare_cont_refl. reflexivity.
Qed.

(* ===================================================================== *)
(** ** The specification on the budget allocator (C1-C4, C8, C10) *)
(* ===================================================================== *)


Section AllocatorClaims.

Local Open Scope float_scope.
Import Scenario.

(** C1 (the code at the failing input).  ROI means A = 4, B = 1, budget
    100000, constraint A.max = 50000: the clamp sets A to 50000, the rescale
    by 100000/70000 then moves it to 71428.57..., above its maximum by far
    more than 1e-6. *)
Lemma C1_rescale_leaves_bound :
  exists a b,
    get_optimal_budget_allocation
      (fitted [("A", 4); ("B", 1)] []) 100000 (Some [("A", only_max 50000)]) world
    = (Return [("A", a); ("B", b)], world)
    /\ strict_eq a (mul 50000 (div 100000 70000)) = true
    /\ within_bounds (only_max 50000) a = false
    /\ gt a (add 50000 1) = true.
Proof. eexists. eexists. vm_compute. repeat split. Qed.

(** C2 (the code at the failing input).  ROI means A = 2, B = -1 (weight
    sum 1), budget 100, constraint A.max = 100.  The constraint set is
    feasible (A = 100, B = 0 meets it), but the clamped allocation A = 100,
    B = -100 sums to 0, the scaling factor is 100/0, and the returned
    amounts are +Infinity and -Infinity: their sum is NaN.  Likewise with no
    negative mean: A = 0, B = 1 and B.max = 0 (A = 100, B = 0 meets it)
    return NaN for both channels. *)
Lemma C2_zero_total_rescale :
  meets [("A", only_max 100)] 100 [("A", 100); ("B", 0)] = true
  /\ get_optimal_budget_allocation
       (fitted [("A", 2); ("B", -1)] []) 100 (Some [("A", only_max 100)]) world
     = (Return [("A", infinity); ("B", neg_infinity)], world)
  /\ reduce_sum [infinity; neg_infinity] = nan
  /\ meets [("B", only_max 0)] 100 [("A", 100); ("B", 0)] = true
  /\ get_optimal_budget_allocation
       (fitted [("A", 0); ("B", 1)] []) 100 (Some [("B", only_max 0)]) world
     = (Return [("A", nan); ("B", nan)], world).
Proof. vm_compute. repeat split. Qed.

(** C3 (the specification fails on the code).  Scenario 4: both channels have min = 90000 and
    the budget is 100000.  No error is thrown: the allocator returns
    A = B = 50000, below both minimums. *)
Lemma C3_infeasible_returns :
  get_optimal_budget_allocation
    (fitted [("A", 1); ("B", 1)] []) 100000
    (Some [("A", only_min 90000); ("B", only_min 90000)]) world
  = (Return [("A", 50000); ("B", 50000)], world)
  /\ lt 100000 (add 90000 90000) = true.
Proof. vm_compute. split; reflexivity. Qed.

(** C3 (amended).  The allocator has no feasibility check and no
    InfeasibleConstraintsError: it returns an allocation exactly when model
    results exist, whatever the constraints, and otherwise throws the
    generic [Error] of the missing-results guard. *)
Theorem C3_only_failure_is_missing_results
    (this : MeridianWrapper float) (totalBudget : float)
    (constraints : option (obj (Constraint float))) (w : World float) :
  match results this,
        fst (get_optimal_budget_allocation this totalBudget constraints w) with
  | Some _, Return _ => True
  | None, Throw e => e = Error no_results_message
  | _, _ => False
  end.
Proof.
  destruct (results this) as [res|] eqn:Hres.
  - now rewrite (allocation_with_results this res).
  - now rewrite allocation_without_results.
Qed.

(** C4 (the specification fails on the code).  ROI means A = 1 and B = -1 sum to 0: the seed
    divides by 0 and every returned amount is NaN.  Scenario 3 (A = -1,
    B = -2, weight sum -3) returns an allocation as well. *)
Lemma C4_zero_weights_return_nan :
  lt 0 (reduce_sum [1; -1]) = false
  /\ get_optimal_budget_allocation (fitted [("A", 1); ("B", -1)] []) 100000 None world
     = (Return [("A", nan); ("B", nan)], world)
  /\ lt 0 (reduce_sum [-1; -2]) = false
  /\ exists a b,
       get_optimal_budget_allocation (fitted [("A", -1); ("B", -2)] []) 100000 None world
       = (Return [("A", a); ("B", b)], world)
       /\ lt a b = true.
Proof. vm_compute. repeat split. eexists. eexists. split; reflexivity. Qed.

(** C4 (amended).  There is no weight-sum check and no
    DegenerateWeightsError: whenever results exist, for every weight sum
    (positive, zero or negative), the allocator returns the clamped and
    rescaled seed, and the seed of each channel is
    [(mean / weightSum) * totalBudget], divided by the weight sum as it is. *)
Theorem C4_seed_divides_by_any_weight_sum
    (this : MeridianWrapper float) (res : Results float) (totalBudget : float)
    (constraints : option (obj (Constraint float))) (w : World float) :
  results this = Some res ->
  wf (roi_values res) ->
  let weightSum := reduce_sum (map (fun kv => mean (snd kv)) (roi_values res)) in
  get_optimal_budget_allocation this totalBudget constraints w
  = (Return
       (normalize totalBudget
          (apply_constraints constraints
             (map (fun kv => (fst kv, mul (div (mean (snd kv)) weightSum) totalBudget))
                (roi_values res)))),
     w).
Proof.
  intros Hres Hwf weightSum.
  rewrite (allocation_with_results this res) by exact Hres.
  assert (Hk : keys (roi_means res) = keys (roi_values res)).
  { rewrite roi_means_map by exact Hwf. unfold keys. now rewrite map_map. }
  rewrite initial_allocation_map by (unfold wf; now rewrite Hk).
  rewrite roi_means_map by exact Hwf.
  unfold values. rewrite !map_map. reflexivity.
Qed.

Lemma C4_seed_divides_by_any_weight_sum_witness :
  get_optimal_budget_allocation (fitted [("A", -1); ("B", -2)] []) 100000 None world
  = (Return
       (normalize 100000
          (apply_constraints None
             (map (fun kv => (fst kv,
                              mul (div (mean (snd kv)) (reduce_sum [-1; -2])) 100000))
                [("A", roi_value (-1)); ("B", roi_value (-2))]))),
     world).
Proof.
  apply (C4_seed_divides_by_any_weight_sum
           (fitted [("A", -1); ("B", -2)] [])
           {| channel_contributions := [];
              roi_values := [("A", roi_value (-1)); ("B", roi_value (-2))];
              model_fit := {| r_squared := 0.75; mape := 0.125 |} |}).
  - reflexivity.
  - unfold wf. simpl. repeat constructor; simpl; intuition discriminate.
Defined.

(** C8 (the specification fails on the code).  ROI means A = 3 and B = -1 (weight sum 2), budget
    100, no constraints: the seed already sums to 100, nothing is clamped or
    rescaled, and B is allocated -50. *)
Lemma C8_negative_amount :
  get_optimal_budget_allocation (fitted [("A", 3); ("B", -1)] []) 100 None world
  = (Return [("A", 150); ("B", -50)], world)
  /\ lt (-50) 0 = true.
Proof. vm_compute. split; reflexivity. Qed.

(** C8 (amended).  There is no implicit minimum of 0.  When no ROI mean is
    negative, the budget is not negative and no supplied bound is negative,
    no returned amount is negative: [x < 0] is false for each of them (an
    amount can still be NaN where a quotient or product is undefined). *)
Theorem C8_no_negative_amount
    (this : MeridianWrapper float) (res : Results float) (totalBudget : float)
    (constraints : option (obj (Constraint float))) (w : World float) :
  results this = Some res ->
  (forall channel r, In (channel, r) (roi_values res) -> lt (mean r) 0 = false) ->
  lt totalBudget 0 = false ->
  (forall cs channel c, constraints = Some cs -> In (channel, c) cs ->
     (forall lo, min c = Some lo -> lt lo 0 = false) /\
     (forall hi, max c = Some hi -> lt hi 0 = false)) ->
  exists allocation,
    get_optimal_budget_allocation this totalBudget constraints w
    = (Return allocation, w)
    /\ forall channel x, In (channel, x) allocation -> lt x 0 = false.
Proof.
  intros Hres Hroi Hb Hcs.
  rewrite (allocation_with_results this res) by exact Hres.
  eexists. split; [reflexivity|].
  intros channel x Hin.
  pose proof (allocation_P FloatSign.not_negative FloatSign.total_like
                FloatFacts.lit_zero_total FloatFacts.add_total
                FloatFacts.mul_not_negative FloatFacts.div_not_negative
                res totalBudget constraints) as HP.
  assert (Hall : Forall (fun kv => FloatSign.not_negative (snd kv))
                   (normalize totalBudget
                      (apply_constraints constraints
                         (initial_allocation (roi_means res)
                            (reduce_sum (values (roi_means res))) totalBudget)))).
  { apply HP.
    - apply Forall_forall. intros [k r] Hk. exact (Hroi k r Hk).
    - exact Hb.
    - intros cs Hsome. apply Forall_forall. intros [k c] Hk.
      exact (Hcs cs k c Hsome Hk). }
  exact (proj1 (Forall_forall _ _) Hall _ Hin).
Qed.

Lemma C8_no_negative_amount_witness :
  exists allocation,
    get_optimal_budget_allocation
      (fitted [("A", 4); ("B", 1)] []) 100000 (Some [("A", only_max 50000)]) world
    = (Return allocation, world)
    /\ forall channel x, In (channel, x) allocation -> lt x 0 = false.
Proof.
  apply (C8_no_negative_amount
           (fitted [("A", 4); ("B", 1)] [])
           {| channel_contributions := [];
              roi_values := [("A", roi_value 4); ("B", roi_value 1)];
              model_fit := {| r_squared := 0.75; mape := 0.125 |} |}).
  - reflexivity.
  - simpl. intros channel r [Heq | [Heq | []]]; inversion Heq; reflexivity.
  - reflexivity.
  - intros cs channel c Hcs Hin. inversion Hcs; subst cs.
    destruct Hin as [Heq | []]. inversion Heq; subst.
    split; intros b Hb; inversion Hb; reflexivity.
Defined.

(** C10.  Called before model results exist ([results] is [null]), the
    allocator returns no allocation: it throws the generic [Error] with the
    message "No model results. Call fit_model() first.", which is neither a
    DegenerateWeightsError nor an InfeasibleConstraintsError (the catch block
    logs it and throws it again). *)
Theorem C10_missing_results_generic_error
    (this : MeridianWrapper float) (totalBudget : float)
    (constraints : option (obj (Constraint float))) (w : World float) :
  results this = None ->
  exists e w',
    get_optimal_budget_allocation this totalBudget constraints w = (Throw e, w')
    /\ name e = "Error"
    /\ message e = "No model results. Call fit_model() first."
    /\ name e <> "DegenerateWeightsError"
    /\ name e <> "InfeasibleConstraintsError"
    /\ console w' = console w ++ [("Error getting optimal budget allocation:", e)].
Proof.
  intros Hres. rewrite allocation_without_results by exact Hres.
  eexists. eexists. split; [reflexivity|].
  repeat split; simpl; discriminate.
Qed.

Lemma C10_missing_results_generic_error_witness :
  exists e w',
    get_optimal_budget_allocation constructor 100000 None world = (Throw e, w')
    /\ name e = "Error"
    /\ message e = "No model results. Call fit_model() first."
    /\ name e <> "DegenerateWeightsError"
    /\ name e <> "InfeasibleConstraintsError"
    /\ console w' = console world ++ [("Error getting optimal budget allocation:", e)].
Proof.
  apply (C10_missing_results_generic_error constructor 100000 None world).
  reflexivity.
Defined.

End AllocatorClaims.

(* ===================================================================== *)
(** ** The specification on the aggregator (C5-C7, C9) *)
(* ===================================================================== *)

Section AggregatorClaims.

Local Open Scope float_scope.
Import Scenario.

(** C5 (the specification fails on the code).  Two channels whose series are all zeros: the
    grand total is 0, the division is not guarded, and both
    [contribution_percentage] values are 0/0 = NaN. *)
Lemma C5_zero_total_nan :
  exists rep w',
    generate_report_data
      (fitted [("A", 1); ("B", 1)] [("A", [0; 0; 0]); ("B", [0; 0; 0])]) world
    = (Return rep, w')
    /\ totals rep = [("A", 0); ("B", 0)]
    /\ percentages rep = [("A", nan); ("B", nan)].
Proof. eexists. eexists. vm_compute. repeat split. Qed.

(** C5 (amended).  The division by the grand total is not guarded: when
    every channel of [channelColumns] has its data and every channel's series
    sums to zero, the report is returned and every [contribution_percentage]
    in it is NaN. *)
Theorem C5_zero_total_percentages_are_nan
    (this : MeridianWrapper float) (res : Results float) (w : World float) :
  results this = Some res ->
  (forall c, In c (channelColumns this) -> present res c) ->
  (forall c, In c (channelColumns this) ->
     strict_eq (channel_total res c) (lit 0) = true) ->
  exists rep w',
    generate_report_data this w = (Return rep, w')
    /\ forall c p, get c (channel_performance rep) = Some p ->
                   contribution_percentage p = nan.
Proof.
  intros Hres Hp Hz.
  rewrite (report_with_results this res) by exact Hres. cbv zeta.
  destruct (channel_metrics_present res (channelColumns this)
              (initial_report this res
                 (next_draws (fun r => add (mul r (lit 10000)) (lit 5000)) 90 w))
              Hp eq_refl)
    as (rep & Hrun & _ & _ & _ & Hcp & _ & _).
  rewrite Hrun. exists rep. eexists. split; [reflexivity|].
  assert (Hzero : forall c, In c (channelColumns this) ->
                            channel_total res c = zero \/ channel_total res c = neg_zero).
  { intros c Hc. apply ZeroFacts.strict_eq_zero. exact (Hz c Hc). }
  assert (Hgrand : grand_total res (channelColumns this) = zero).
  { unfold grand_total. apply ZeroFacts.sum_of_zeros.
    intros x Hx. apply in_map_iff in Hx as (c & <- & Hc). now apply Hzero. }
  intros c p Hget. rewrite Hcp in Hget.
  destruct (in_dec string_dec c (channelColumns this)) as [Hc|]; [|discriminate].
  unfold performance, performance0 in Hget.
  pose proof (Hzero c Hc) as Hzc. unfold channel_total in Hzc.
  destruct (get c (channel_contributions res)) as [series|]; [|discriminate].
  destruct (get c (roi_values res)) as [r|]; [|discriminate].
  inversion Hget; subst p. cbn. rewrite Hgrand.
  now apply ZeroFacts.zero_div_zero.
Qed.

Lemma C5_zero_total_percentages_are_nan_witness :
  exists rep w',
    generate_report_data
      (fitted [("A", 1); ("B", 1)] [("A", [0; 0; 0]); ("B", [0; -0])]) world
    = (Return rep, w')
    /\ forall c p, get c (channel_performance rep) = Some p ->
                   contribution_percentage p = nan.
Proof.
  apply (C5_zero_total_percentages_are_nan
           (fitted [("A", 1); ("B", 1)] [("A", [0; 0; 0]); ("B", [0; -0])])
           {| channel_contributions := [("A", [0; 0; 0]); ("B", [0; -0])];
              roi_values := [("A", roi_value 1); ("B", roi_value 1)];
              model_fit := {| r_squared := 0.75; mape := 0.125 |} |}).
  - reflexivity.
  - intros c [<- | [<- | []]]; eexists; eexists; split; reflexivity.
  - intros c [<- | [<- | []]]; reflexivity.
Defined.

(** C7 (the specification fails on the code).  Series of lengths 3 and 1: no error is thrown and
    the full report is returned, with totals 600 and 1. *)
Lemma C7_misaligned_series_aggregated :
  exists rep w',
    generate_report_data
      (fitted [("A", 1); ("B", 1)] [("A", [100; 200; 300]); ("B", [1])]) world
    = (Return rep, w')
    /\ totals rep = [("A", 600); ("B", 1)]
    /\ List.length [100; 200; 300] <> List.length [1].
Proof. eexists. eexists. vm_compute. repeat split. discriminate. Qed.

(** C7 (amended).  The aggregator compares no lengths and has no
    MisalignedSeriesError: whenever results exist and every channel of
    [channelColumns] has a series and an ROI entry, whatever the lengths of
    the series, it returns the report and logs nothing; for each such
    channel, [total_contribution] is the sum of its own series and the
    series is copied to the report as it is. *)
Theorem C7_series_lengths_not_compared
    (this : MeridianWrapper float) (res : Results float) (w : World float) :
  results this = Some res ->
  (forall c, In c (channelColumns this) -> present res c) ->
  exists rep w',
    generate_report_data this w = (Return rep, w')
    /\ console w' = console w
    /\ forall c, In c (channelColumns this) ->
         exists series p,
           get c (channel_contributions res) = Some series
           /\ get c (channel_performance rep) = Some p
           /\ total_contribution p = reduce_sum series
           /\ get c (series_channel_contributions (time_series_data rep))
              = Some series.
Proof.
  intros Hres Hp.
  rewrite (report_with_results this res) by exact Hres. cbv zeta.
  destruct (channel_metrics_present res (channelColumns this)
              (initial_report this res
                 (next_draws (fun r => add (mul r (lit 10000)) (lit 5000)) 90 w))
              Hp eq_refl)
    as (rep & Hrun & _ & _ & _ & Hcp & Hsc & _).
  rewrite Hrun. exists rep. eexists. split; [reflexivity|]. split; [reflexivity|].
  intros c Hc. destruct (Hp c Hc) as (series & r & Hs & Hr).
  exists series. eexists. split; [exact Hs|].
  rewrite Hcp, (Hsc c Hc).
  destruct (in_dec string_dec c (channelColumns this)); [|contradiction].
  unfold performance, performance0. rewrite Hs, Hr. cbn.
  repeat split; reflexivity.
Qed.

Lemma C7_series_lengths_not_compared_witness :
  exists rep w',
    generate_report_data
      (fitted [("A", 1); ("B", 1)] [("A", [100; 200; 300]); ("B", [1])]) world
    = (Return rep, w')
    /\ console w' = console world
    /\ forall c, In c ["A"; "B"] ->
         exists series p,
           get c [("A", [100; 200; 300]); ("B", [1])] = Some series
           /\ get c (channel_performance rep) = Some p
           /\ total_contribution p = reduce_sum series
           /\ get c (series_channel_contributions (time_series_data rep))
              = Some series.
Proof.
  apply (C7_series_lengths_not_compared
           (fitted [("A", 1); ("B", 1)] [("A", [100; 200; 300]); ("B", [1])])
           {| channel_contributions := [("A", [100; 200; 300]); ("B", [1])];
              roi_values := [("A", roi_value 1); ("B", roi_value 1)];
              model_fit := {| r_squared := 0.75; mape := 0.125 |} |}).
  - reflexivity.
  - intros c [<- | [<- | []]]; eexists; eexists; split; reflexivity.
Defined.



End AggregatorClaims.

Section ExactClaims.

Local Open Scope Q_scope.




End ExactClaims.

(* ===================================================================== *)
(** ** Further properties of the two methods *)
(* ===================================================================== *)

Section AllocatorProperties.

Local Open Scope float_scope.
Import Scenario.

(** X1.  The constraint loop (lines 150-162) leaves every constrained
    channel of the allocation within the bounds supplied for it, provided
    the maximum is not below the minimum: this holds for the allocation
    before the rescale of lines 165-171. *)
Theorem X1_clamp_pass_within_bounds
    (cs : obj (Constraint float)) (allocation : obj float)
    (channel : string) (c : Constraint float) (a : float) :
  wf cs ->
  get channel cs = Some c ->
  get channel allocation = Some a ->
  (forall lo hi, min c = Some lo -> max c = Some hi -> lt hi lo = false) ->
  exists a',
    get channel (apply_constraints (Some cs) allocation) = Some a'
    /\ (forall lo, min c = Some lo -> lt a' lo = false)
    /\ (forall hi, max c = Some hi -> gt a' hi = false).
Proof.
  intros Hwf Hc Ha Hord. exists (clamp c a). split.
  - now apply apply_constraints_clamps.
  - apply (clamp_within float_lt_irrefl c a Hord).
Qed.

Lemma X1_clamp_pass_within_bounds_witness :
  exists a',
    get "A" (apply_constraints (Some [("A", only_max 50000)])
               [("A", 80000); ("B", 20000)]) = Some a'
    /\ (forall lo, min (only_max 50000) = Some lo -> lt a' lo = false)
    /\ (forall hi, max (only_max 50000) = Some hi -> gt a' hi = false).
Proof.
  apply (X1_clamp_pass_within_bounds
           [("A", only_max 50000)] [("A", 80000); ("B", 20000)] "A"
           (only_max 50000) 80000).
  - unfold wf. simpl. repeat constructor. simpl. tauto.
  - reflexivity.
  - reflexivity.
  - intros lo hi Hlo. discriminate Hlo.
Defined.

(** X2.  When the clamped allocation already sums to the budget
    ([currentTotal === totalBudget], so lines 166-171 change nothing), the
    returned allocation is the clamped one, and every constrained channel
    that has an ROI entry is within its supplied bounds. *)
Theorem X2_bounds_hold_without_rescale
    (this : MeridianWrapper float) (res : Results float) (totalBudget : float)
    (cs : obj (Constraint float)) (w : World float) :
  results this = Some res ->
  wf (roi_values res) ->
  wf cs ->
  strict_eq
    (reduce_sum
       (values (apply_constraints (Some cs)
                  (initial_allocation (roi_means res)
                     (reduce_sum (values (roi_means res))) totalBudget))))
    totalBudget = true ->
  exists allocation,
    get_optimal_budget_allocation this totalBudget (Some cs) w = (Return allocation, w)
    /\ forall channel c,
         get channel cs = Some c ->
         In channel (keys (roi_values res)) ->
         (forall lo hi, min c = Some lo -> max c = Some hi -> lt hi lo = false) ->
         exists x,
           get channel allocation = Some x
           /\ (forall lo, min c = Some lo -> lt x lo = false)
           /\ (forall hi, max c = Some hi -> gt x hi = false).
Proof.
  intros Hres Hwf Hwfc Hsum.
  rewrite (allocation_with_results this res) by exact Hres.
  eexists. split; [reflexivity|].
  intros channel c Hc Hin Hord.
  unfold normalize, strict_ne. rewrite Hsum. cbn [negb].
  set (seed := initial_allocation (roi_means res)
                 (reduce_sum (values (roi_means res))) totalBudget).
  assert (Hkeys : keys seed = keys (roi_values res)).
  { assert (Hk1 : keys (roi_means res) = keys (roi_values res)).
    { rewrite roi_means_map by exact Hwf. unfold keys. now rewrite map_map. }
    unfold seed. rewrite initial_allocation_map by (unfold wf; now rewrite Hk1).
    unfold keys at 1. rewrite map_map. exact Hk1. }
  rewrite <- Hkeys in Hin. destruct (In_keys_get _ _ Hin) as [a Ha].
  exists (clamp c a). split.
  - now apply apply_constraints_clamps.
  - apply (clamp_within float_lt_irrefl c a Hord).
Qed.

Lemma X2_bounds_hold_without_rescale_witness :
  exists allocation,
    get_optimal_budget_allocation (fitted [("A", 4); ("B", 1)] []) 100000
      (Some [("A", {| min := Some 50000; max := Some 90000 |})]) world
    = (Return allocation, world)
    /\ forall channel c,
         get channel [("A", {| min := Some 50000; max := Some 90000 |})] = Some c ->
         In channel ["A"; "B"] ->
         (forall lo hi, min c = Some lo -> max c = Some hi -> lt hi lo = false) ->
         exists x,
           get channel allocation = Some x
           /\ (forall lo, min c = Some lo -> lt x lo = false)
           /\ (forall hi, max c = Some hi -> gt x hi = false).
Proof.
  apply (X2_bounds_hold_without_rescale
           (fitted [("A", 4); ("B", 1)] [])
           {| channel_contributions := [];
              roi_values := [("A", roi_value 4); ("B", roi_value 1)];
              model_fit := {| r_squared := 0.75; mape := 0.125 |} |}).
  - reflexivity.
  - unfold wf. simpl. repeat constructor; simpl; intuition discriminate.
  - unfold wf. simpl. repeat constructor. simpl. tauto.
  - reflexivity.
Defined.

End AllocatorProperties.

Section ExactProperties.

Local Open Scope Q_scope.




End ExactProperties.

(* ===================================================================== *)
(** ** More on the two numeric methods *)
(* ===================================================================== *)

Section ReportOutcome.

Context {num : Type} `{Number num}.

(** A column without a series or without an ROI entry makes the loops throw
    a [TypeError]. *)
Lemma channel_metrics_absent (res : Results num) cols (rd : ReportData num) :
  (exists c, In c cols /\ ~ present res c) ->
  exists e, channel_metrics res cols rd = Throw e /\ name e = "TypeError".
Proof.
  intros Habs. unfold channel_metrics.
  enough (Hloop : forall st, exists e,
             for_of cols (performance_step res) st = Throw e /\ name e = "TypeError").
  { destruct (Hloop (lit 0, rd)) as (e & -> & He). now exists e. }
  induction cols as [|c cols IH]; intros [tot rd0].
  - destruct Habs as (c & [] & _).
  - cbn [for_of]. unfold performance_step at 1.
    destruct (get c (channel_contributions res)) as [series|] eqn:Hs;
      [|eexists; split; reflexivity].
    destruct (get c (roi_values res)) as [r|] eqn:Hr;
      [|eexists; split; reflexivity].
    apply IH. destruct Habs as (c' & [<- | Hin] & Hnp).
    + exfalso. apply Hnp. now exists series, r.
    + now exists c'.
Qed.

End ReportOutcome.

Lemma apply_constraint_absent {num} `{Number num} channel (c : Constraint num)
    (allocation : obj num) :
  get channel allocation = None -> apply_constraint channel c allocation = allocation.
Proof. intros Hg. unfold apply_constraint, has. now rewrite Hg. Qed.

(** Constraints on names the allocation does not have change nothing. *)
Lemma apply_constraints_unknown {num} `{Number num} (cs : obj (Constraint num))
    (allocation : obj num) :
  (forall k, In k (keys cs) -> get k allocation = None) ->
  apply_constraints (Some cs) allocation = allocation.
Proof.
  intros Hun. cbn [apply_constraints]. unfold for_in.
  revert Hun. generalize (keys cs) as ks.
  induction ks as [|k ks IH]; intros Hun; cbn [fold_left]; [reflexivity|].
  destruct (get k cs) as [c|].
  - rewrite apply_constraint_absent by (apply Hun; now left).
    apply IH. intros k' Hk'. apply Hun. now right.
  - apply IH. intros k' Hk'. apply Hun. now right.
Qed.

(** The seed has one entry per channel of [roi_values], in order. *)
Lemma keys_seed {num} `{Number num} (res : Results num) (totalRoi totalBudget : num) :
  wf (roi_values res) ->
  keys (initial_allocation (roi_means res) totalRoi totalBudget)
  = keys (roi_values res).
Proof.
  intros Hwf.
  assert (Hk1 : keys (roi_means res) = keys (roi_values res)).
  { rewrite roi_means_map by exact Hwf. unfold keys. now rewrite map_map. }
  rewrite initial_allocation_map by (unfold wf; now rewrite Hk1).
  unfold keys at 1. rewrite map_map. exact Hk1.
Qed.


Section NumericProperties.

Local Open Scope float_scope.
Import Scenario.

(** X4.  [generate_report_data] returns a report exactly when model results
    exist and every channel of [channelColumns] has both a contribution
    series and an ROI entry in them.  Otherwise it throws, an [Error] for
    missing results or a [TypeError] for a column without data, and the
    catch block has written exactly that error to the console. *)
Theorem X4_report_returned_iff_columns_present
    (this : MeridianWrapper float) (w : World float) :
  ((exists rep w', generate_report_data this w = (Return rep, w'))
   <-> (exists res, results this = Some res
                    /\ forall c, In c (channelColumns this) -> present res c))
  /\ (forall e w', generate_report_data this w = (Throw e, w') ->
        (name e = "Error" \/ name e = "TypeError")
        /\ console w' = console w ++ [("Error generating report data:", e)]).
Proof.
  destruct (results this) as [res|] eqn:Hres.
  - rewrite (report_with_results this res) by exact Hres. cbv zeta.
    set (rd := initial_report this res _).
    destruct (channel_metrics res (channelColumns this) rd) as [rep|e] eqn:Hrun.
    + split; [split|].
      * intros _. exists res. split; [reflexivity|].
        intros c Hc.
        assert (Hdec : present res c \/ ~ present res c).
        { unfold present.
          destruct (get c (channel_contributions res)) as [s|];
            destruct (get c (roi_values res)) as [r|];
            [left; now exists s, r | right | right | right];
            intros (s' & r' & Hs' & Hr'); discriminate. }
        destruct Hdec as [Hp|Hnp]; [exact Hp|].
        destruct (channel_metrics_absent res (channelColumns this) rd) as (e & He & _).
        { now exists c. }
        congruence.
      * intros _. now exists rep, (after_draws 90 w).
      * intros e w' Heq. discriminate Heq.
    + split; [split|].
      * intros (rep & w' & Heq). discriminate Heq.
      * intros (res' & Hres' & Hp). inversion Hres'; subst res'.
        destruct (channel_metrics_present res (channelColumns this) rd Hp eq_refl)
          as (rep & Hrep & _). congruence.
      * intros e' w' Heq. inversion Heq; subst. split; [|reflexivity].
        right.
        assert (Hex : exists c, In c (channelColumns this) /\ ~ present res c).
        { clear Heq.
          assert (Hall : (forall c, In c (channelColumns this) -> present res c)
                         \/ exists c, In c (channelColumns this) /\ ~ present res c).
          { generalize (channelColumns this) as cols.
            induction cols as [|c cols IH]; [left; intros c []|].
            assert (Hdec : present res c \/ ~ present res c).
            { unfold present.
              destruct (get c (channel_contributions res)) as [s|];
                destruct (get c (roi_values res)) as [r|];
                [left; now exists s, r | right | right | right];
                intros (s' & r' & Hs' & Hr'); discriminate. }
            destruct Hdec as [Hp|Hnp]; [|right; exists c; split; [now left | exact Hnp]].
            destruct IH as [Hall|(c' & Hin & Hnp)].
            - left. intros c' [<- | Hin]; auto.
            - right. exists c'. split; [now right | exact Hnp]. }
          destruct Hall as [Hall|Hex]; [|exact Hex].
          destruct (channel_metrics_present res (channelColumns this) rd Hall eq_refl)
            as (rep & Hrep & _). congruence. }
        destruct (channel_metrics_absent res (channelColumns this) rd Hex)
          as (e0 & He0 & Hname). congruence.
  - rewrite report_without_results by exact Hres.
    split; [split|].
    + intros (rep & w' & Heq). discriminate Heq.
    + intros (res & Hres' & _). discriminate Hres'.
    + intros e w' Heq. inversion Heq; subst. split; [now left | reflexivity].
Qed.



(** X6.  Constraints are looked up by channel name only: a [constraints]
    object all of whose names are unknown to [roi_values] (the empty object
    included) gives the same result as no constraints at all. *)
Theorem X6_unknown_constraints_ignored
    (this : MeridianWrapper float) (res : Results float) (totalBudget : float)
    (cs : obj (Constraint float)) (w : World float) :
  results this = Some res ->
  wf (roi_values res) ->
  (forall k, In k (keys cs) -> ~ In k (keys (roi_values res))) ->
  get_optimal_budget_allocation this totalBudget (Some cs) w
  = get_optimal_budget_allocation this totalBudget None w.
Proof.
  intros Hres Hwf Hun.
  rewrite !(allocation_with_results this res) by exact Hres.
  rewrite apply_constraints_unknown; [reflexivity|].
  intros k Hk. apply get_None_keys. rewrite keys_seed by exact Hwf. now apply Hun.
Qed.

Lemma X6_unknown_constraints_ignored_witness :
  get_optimal_budget_allocation (fitted [("A", 4); ("B", 1)] []) 100000
    (Some [("a", only_max 1); ("C", only_min 99999)]) world
  = get_optimal_budget_allocation (fitted [("A", 4); ("B", 1)] []) 100000 None world.
Proof.
  apply (X6_unknown_constraints_ignored
           (fitted [("A", 4); ("B", 1)] [])
           {| channel_contributions := [];
              roi_values := [("A", roi_value 4); ("B", roi_value 1)];
              model_fit := {| r_squared := 0.75; mape := 0.125 |} |}).
  - reflexivity.
  - unfold wf. simpl. repeat constructor; simpl; intuition discriminate.
  - simpl. intros k [<- | [<- | []]]; intuition discriminate.
Defined.



End NumericProperties.

Section ExactProportional.

Local Open Scope Q_scope.




End ExactProportional.

(* ===================================================================== *)
(** ** The other methods, step by step *)
(* ===================================================================== *)

Module MockFacts.

Import FloatSign Lifecycle.
Local Open Scope float_scope.



(** [0 < x] excludes [x < 0]. *)
Lemma positive_not_negative x : (0 <? x) = true -> not_negative x.
Proof.
  unfold not_negative. rewrite !FloatAxioms.ltb_spec, FloatFacts.Prim2SF_zero.
  destruct (Prim2SF x) as [[|]|[|]| |[|] m e]; cbv [SFltb SFcompare]; congruence.
Qed.

(** [Math.max(0, x)] is never negative. *)
Lemma Math_max_zero_not_negative x : not_negative (Math_max 0 x).
Proof.
  unfold Math_max. change (is_nan 0) with false. cbn [orb].
  destruct (is_nan x); [reflexivity|].
  destruct (0 <? x) eqn:E1; [now apply positive_not_negative|].
  destruct (x <? 0); reflexivity.
Qed.


Lemma after_draws_add n m (w : World float) :
  after_draws m (after_draws n w) = after_draws (n + m) w.
Proof. unfold after_draws. cbn [random drawn console]. f_equal. lia. Qed.

Lemma mock_contribution_run (w : World float) :
  mock_contribution w = (Return (next_draws contribution_of_draw 90 w), after_draws 90 w).
Proof. unfold mock_contribution, Array_from. apply Array_from_random. Qed.

Lemma mock_roi_run (w : World float) :
  mock_roi w = (Return (roi_of_draw (random w (drawn w))), after_draws 1 w).
Proof.
  unfold mock_roi, bind, Math_random, ret, after_draws. cbn.
  now rewrite Nat.add_1_r.
Qed.

(** A series of draws: ninety values, each made of one draw. *)
Lemma next_draws_shape g n (w : World float) :
  List.length (next_draws g n w) = n
  /\ forall x, In x (next_draws g n w) -> exists i, x = g (random w i).
Proof.
  unfold next_draws. split.
  - now rewrite length_map, length_seq.
  - intros x Hx. apply in_map_iff in Hx as (j & <- & _). eauto.
Qed.

(** An assignment keeps the keys of an object pairwise different. *)
Lemma wf_set {V} k (v : V) (o : obj V) : wf o -> wf (set k v o).
Proof.
  unfold wf. intros Hwf. destruct (get k o) as [v0|] eqn:Hg.
  - rewrite keys_set_has; [exact Hwf|]. unfold has. now rewrite Hg.
  - rewrite (set_fresh _ _ _ Hg). unfold keys. rewrite map_app. cbn [map fst].
    apply NoDup_app; [exact Hwf | repeat constructor; intros [] |].
    intros x Hx [<-|[]]. apply get_None_keys in Hg. contradiction.
Qed.

(** A loop that assigns to each channel a value made from the world. *)
Lemma assign_loop {V} (make : M float V) (value : World float -> V) (k : nat)
    (P : V -> Prop) :
  (forall w, make w = (Return (value w), after_draws k w)) ->
  forall (source : nat -> float),
    (forall w, random w = source -> P (value w)) ->
    forall cols (acc : obj V) (w : World float),
      random w = source ->
      exists acc',
        for_each cols
          (fun channel acc => (v <- make ;; ret (set channel v acc))%js) acc w
        = (Return acc', after_draws (k * List.length cols) w)
        /\ (forall c, In c cols -> exists v, get c acc' = Some v /\ P v)
        /\ (forall c, ~ In c cols -> get c acc' = get c acc)
        /\ (NoDup (keys acc ++ cols) -> keys acc' = keys acc ++ cols)
        /\ (wf acc -> wf acc').
Proof.
  intros Hmake source HP.
  induction cols as [|c cols IH]; intros acc w Hw.
  - exists acc. cbn [for_each List.length]. rewrite Nat.mul_0_r.
    unfold ret, after_draws. rewrite Nat.add_0_r. destruct w; cbn.
    repeat split; auto.
    + intros c [].
    + intros _. now rewrite app_nil_r.
  - cbn [for_each]. unfold bind at 1. unfold bind at 1. rewrite Hmake.
    unfold ret at 1.
    destruct (IH (set c (value w) acc) (after_draws k w) Hw)
      as (acc' & Hrun & Hin & Hout & Hkeys & Hwf).
    exists acc'. rewrite Hrun, after_draws_add.
    replace (k + k * List.length cols)%nat with (k * List.length (c :: cols))%nat
      by (cbn [List.length]; now rewrite Nat.mul_succ_r, Nat.add_comm).
    repeat split.
    + intros c' Hc'.
      destruct (in_dec string_dec c' cols) as [Hin'|Hni]; [now apply Hin|].
      destruct Hc' as [<-|Hc']; [|contradiction].
      exists (value w). rewrite (Hout c Hni), get_set_same. split; [reflexivity|].
      now apply HP.
    + intros c' Hni. rewrite Hout by (intros Hc'; apply Hni; now right).
      apply get_set_other. intros ->. apply Hni. now left.
    + intros Hnd.
      assert (Hfresh : get c acc = None).
      { apply get_None_keys. intros Hc. apply NoDup_remove_2 in Hnd.
        apply Hnd. apply in_or_app. now left. }
      rewrite (set_fresh _ _ _ Hfresh) in Hkeys.
      unfold keys in Hkeys |- *. rewrite map_app in Hkeys. cbn [map fst] in Hkeys.
      rewrite <- app_assoc in Hkeys. apply Hkeys. exact Hnd.
    + intros Hacc. apply Hwf. now apply wf_set.
Qed.

(** [fit_model]'s mock results: always returned, shaped as described, with
    an entry for every column, after [91 * n + 2] draws. *)
Lemma mock_results_run cols (w : World float) :
  exists res,
    mock_results cols w
    = (Return res, after_draws (91 * List.length cols + 2) w)
    /\ mock_shaped (random w) res
    /\ (forall c, In c cols -> present res c)
    /\ (forall c, ~ In c cols -> get c (channel_contributions res) = None)
    /\ (NoDup cols -> keys (channel_contributions res) = cols
                      /\ keys (roi_values res) = cols).
Proof.
  unfold mock_results.
  destruct (assign_loop mock_contribution (next_draws contribution_of_draw 90) 90
              (fun s => List.length s = 90%nat
                        /\ forall x, In x s ->
                             exists i, x = contribution_of_draw (random w i))
              mock_contribution_run (random w)) with (cols := cols) (acc := @nil (string * list float)) (w := w)
    as (cc & Hrun1 & Hin1 & Hout1 & Hk1 & Hwf1); [|reflexivity|].
  { intros w0 Hw0. rewrite <- Hw0. apply next_draws_shape. }
  destruct (assign_loop mock_roi (fun w0 => roi_of_draw (random w0 (drawn w0))) 1
              (fun r => exists i, r = roi_of_draw (random w i))
              mock_roi_run (random w)) with (cols := cols) (acc := @nil (string * RoiValue float))
              (w := after_draws (90 * List.length cols) w)
    as (rv & Hrun2 & Hin2 & Hout2 & Hk2 & Hwf2); [|reflexivity|].
  { intros w0 Hw0. rewrite <- Hw0. eauto. }
  unfold bind at 1. rewrite Hrun1.
  unfold bind at 1. rewrite Hrun2.
  unfold bind, Math_random, ret. cbn [random drawn console after_draws].
  eexists. split.
  { unfold after_draws. cbn [random drawn console]. do 2 f_equal. lia. }
  assert (Hnone1 : forall c, ~ In c cols -> get c cc = None)
    by (intros c Hc; now rewrite Hout1).
  assert (Hnone2 : forall c, ~ In c cols -> get c rv = None)
    by (intros c Hc; now rewrite Hout2).
  split; [|split; [|split]].
  - unfold mock_shaped. cbn [channel_contributions roi_values].
    split; [apply Hwf1; constructor|]. split; [apply Hwf2; constructor|].
    split; [|split].
    + intros c. destruct (in_dec string_dec c cols) as [Hc|Hc].
      * destruct (Hin1 c Hc) as (s & -> & _), (Hin2 c Hc) as (r & -> & _).
        split; discriminate.
      * rewrite (Hnone1 c Hc), (Hnone2 c Hc). tauto.
    + intros c series Hs. destruct (in_dec string_dec c cols) as [Hc|Hc].
      * destruct (Hin1 c Hc) as (s & Hs' & Hlen & Hdraws).
        rewrite Hs in Hs'. inversion Hs'; subst s. split; assumption.
      * rewrite (Hnone1 c Hc) in Hs. discriminate.
    + intros c r Hr. destruct (in_dec string_dec c cols) as [Hc|Hc].
      * destruct (Hin2 c Hc) as (r' & Hr' & Hdraw).
        rewrite Hr in Hr'. inversion Hr'; subst r'. exact Hdraw.
      * rewrite (Hnone2 c Hc) in Hr. discriminate.
  - intros c Hc. destruct (Hin1 c Hc) as (s & Hs & _), (Hin2 c Hc) as (r & Hr & _).
    exists s, r. cbn [channel_contributions roi_values]. now split.
  - exact Hnone1.
  - intros Hnd. cbn [channel_contributions roi_values]. split.
    + apply Hk1. exact Hnd.
    + apply Hk2. exact Hnd.
Qed.

End MockFacts.

Module MethodFacts.

Import FloatSign Lifecycle.
Local Open Scope float_scope.

Lemma load_data_run d dc tc cc ctl (this : WrapperObject) (w : World float) :
  load_data d dc tc cc ctl (this, w)
  = match chosen_columns d cc with
    | Some cols =>
        (Return d,
         (set_controlColumns (default ctl [])
            (set_channelColumns cols
               (set_targetColumn (default tc "target")
                  (set_dateColumn (default dc "date") (set_data d this)))),
          w))
    | None =>
        (Throw (TypeError_null "channels"),
         (set_targetColumn (default tc "target")
            (set_dateColumn (default dc "date") (set_data d this)),
          logged "Error loading data:" (TypeError_null "channels") w))
    end.
Proof.
  unfold load_data, chosen_columns, mtry, mbind, assign, this_object, mret.
  cbn [fst snd].
  destruct (0 <? List.length (default cc []))%nat; [reflexivity|].
  destruct d as [d|]; reflexivity.
Qed.

Lemma preprocess_data_run (this : WrapperObject) (w : World float) :
  preprocess_data (this, w)
  = match data this with
    | Some d => (Return d, (this, w))
    | None =>
        (Throw (Error no_data_message),
         (this, logged "Error preprocessing data:" (Error no_data_message) w))
    end.
Proof.
  unfold preprocess_data, mtry, mbind, this_object. cbn [fst snd].
  destruct (data this); reflexivity.
Qed.

Lemma build_model_run lag bound cal (this : WrapperObject) (w : World float) :
  build_model lag bound cal (this, w)
  = match data this with
    | Some _ =>
        let m := {| status := "built";
                    params :=
                      {| adstockMaxLag := default lag 4;
                         hillExponentBound := default bound 3;
                         calibrationData := cal;
                         params_channels := channelColumns (numeric this);
                         params_target := targetColumn this;
                         params_controls := controlColumns this |} |} in
        (Return m, (set_model (Some m) this, w))
    | None =>
        (Throw (Error no_data_message),
         (this, logged "Error building model:" (Error no_data_message) w))
    end.
Proof.
  unfold build_model, mtry, mbind, this_object. cbn [fst snd].
  destruct (data this); reflexivity.
Qed.

Lemma fit_model_run it ch (this : WrapperObject) (w : World float) :
  match model this with
  | Some _ =>
      exists res,
        fit_model it ch (this, w)
        = (Return res,
           (set_results (Some res) this,
            after_draws (91 * List.length (channelColumns (numeric this)) + 2) w))
        /\ mock_shaped (random w) res
        /\ (forall c, In c (channelColumns (numeric this)) -> present res c)
        /\ (forall c, ~ In c (channelColumns (numeric this)) ->
              get c (channel_contributions res) = None)
        /\ (NoDup (channelColumns (numeric this)) ->
            keys (channel_contributions res) = channelColumns (numeric this)
            /\ keys (roi_values res) = channelColumns (numeric this))
  | None =>
      fit_model it ch (this, w)
      = (Throw (Error no_model_message),
         (this, logged "Error fitting model:" (Error no_model_message) w))
  end.
Proof.
  unfold fit_model, mtry, mbind, this_object. cbn [fst snd].
  destruct (model this); [|reflexivity].
  destruct (MockFacts.mock_results_run (channelColumns (numeric this)) w)
    as (res & Hrun & Hshape & Hcov & Hnone & Hkeys).
  exists res. unfold in_world. cbn [fst snd]. rewrite Hrun.
  split; [reflexivity|]. split; [exact Hshape|]. split; [exact Hcov|].
  split; [exact Hnone | exact Hkeys].
Qed.

Lemma allocate_run totalBudget constraints (this : WrapperObject) (w : World float) :
  allocate totalBudget constraints (this, w)
  = match results (numeric this) with
    | Some res =>
        (Return
           (normalize totalBudget
              (apply_constraints constraints
                 (initial_allocation (roi_means res)
                    (reduce_sum (values (roi_means res))) totalBudget))),
         (this, w))
    | None =>
        (Throw (Error no_results_message),
         (this, logged "Error getting optimal budget allocation:"
                  (Error no_results_message) w))
    end.
Proof.
  unfold allocate, reading. cbn [fst snd].
  destruct (results (numeric this)) as [res|] eqn:Hres.
  - now rewrite (allocation_with_results _ res) by exact Hres.
  - now rewrite allocation_without_results by exact Hres.
Qed.

Lemma report_run (this : WrapperObject) (w : World float) :
  report (this, w)
  = match results (numeric this) with
    | Some res =>
        match channel_metrics res (channelColumns (numeric this))
                (initial_report (numeric this) res (next_draws target_of_draw 90 w)) with
        | Return rep => (Return rep, (this, after_draws 90 w))
        | Throw e =>
            (Throw e,
             (this, logged "Error generating report data:" e (after_draws 90 w)))
        end
    | None =>
        (Throw (Error no_results_message),
         (this, logged "Error generating report data:" (Error no_results_message) w))
    end.
Proof.
  unfold report, reading. cbn [fst snd].
  destruct (results (numeric this)) as [res|] eqn:Hres.
  - rewrite (report_with_results _ res) by exact Hres. cbv zeta.
    change (fun r : float => add (mul r (lit 10000)) (lit 5000)) with (@target_of_draw float _).
    destruct (channel_metrics _ _ _); reflexivity.
  - now rewrite report_without_results by exact Hres.
Qed.

Lemma report_run_results (this : WrapperObject) (res : Results float) (w : World float) :
  results (numeric this) = Some res ->
  report (this, w)
  = match channel_metrics res (channelColumns (numeric this))
            (initial_report (numeric this) res (next_draws target_of_draw 90 w)) with
    | Return rep => (Return rep, (this, after_draws 90 w))
    | Throw e =>
        (Throw e, (this, logged "Error generating report data:" e (after_draws 90 w)))
    end.
Proof. intros Hres. rewrite report_run. now rewrite Hres. Qed.

(** No call changes what [Math.random()] will return at a given position,
    and a call that is not [fit_model] or [build_model ...] keeps [model]
    and [results]. *)
Lemma random_after_call c (h : Heap) : random (snd (after_call c h)) = random (snd h).
Proof.
  destruct h as [this w]. destruct c; cbn [after_call].
  - rewrite load_data_run. destruct (chosen_columns _ _); reflexivity.
  - rewrite preprocess_data_run. destruct (data this); reflexivity.
  - rewrite build_model_run. destruct (data this); reflexivity.
  - pose proof (fit_model_run iterations chains this w) as Hfit.
    destruct (model this).
    + destruct Hfit as (res & -> & _). reflexivity.
    + rewrite Hfit. reflexivity.
  - rewrite allocate_run. destruct (results (numeric this)); reflexivity.
  - unfold report, reading. cbn [fst snd].
    destruct (results (numeric this)) as [res|] eqn:Hres.
    + rewrite (report_with_results _ res) by exact Hres. cbv zeta.
      destruct (channel_metrics _ _ _); reflexivity.
    + now rewrite report_without_results by exact Hres.
Qed.

Lemma consistent_after_call c (h : Heap) : consistent h -> consistent (after_call c h).
Proof.
  destruct h as [this w]. unfold consistent. cbn [fst snd].
  intros (Hrm & Hst & Hshape).
  destruct c; cbn [after_call].
  - rewrite load_data_run. destruct (chosen_columns _ _); cbn; auto.
  - rewrite preprocess_data_run. destruct (data this); cbn; auto.
  - rewrite build_model_run. destruct (data this); cbn; auto.
    split; [discriminate|]. split; [|exact Hshape].
    intros m0 Hm0. inversion Hm0. reflexivity.
  - pose proof (fit_model_run iterations chains this w) as Hfit.
    destruct (model this) as [m|] eqn:Hm.
    + destruct Hfit as (res & -> & Hsh & _). cbn. rewrite Hm.
      split; [intros _; discriminate|]. split; [exact Hst|].
      intros res' Hres'. inversion Hres'; subst res'. exact Hsh.
    + rewrite Hfit. cbn. rewrite Hm. auto.
  - rewrite allocate_run.
    destruct (results (numeric this)) eqn:Hres; cbn; rewrite ?Hres; auto.
  - unfold report, reading. cbn [fst snd].
    destruct (results (numeric this)) as [res|] eqn:Hres.
    + rewrite (report_with_results _ res) by exact Hres. cbv zeta.
      destruct (channel_metrics _ _ _); cbn; rewrite ?Hres; auto.
    + rewrite report_without_results by exact Hres. cbn. rewrite ?Hres. auto.
Qed.

End MethodFacts.

(* ===================================================================== *)
(** ** Properties of the other methods *)
(* ===================================================================== *)

Section LifecycleProperties.

Import FloatSign Lifecycle Scenario.
Local Open Scope float_scope.

(** X9.  [load_data] called without data and without channel columns
    (omitted or empty) throws a [TypeError] half-way: [data] is already
    overwritten with [null] and [dateColumn] and [targetColumn] with the new
    names, while [channelColumns], [controlColumns], [model] and [results]
    keep their old values; the error is written to the console. *)
Theorem X9_load_data_fails_half_assigned
    (dc tc : option string) (cc ctl : option (list string))
    (this : WrapperObject) (w : World float) :
  default cc [] = [] ->
  exists e this' w',
    load_data None dc tc cc ctl (this, w) = (Throw e, (this', w'))
    /\ name e = "TypeError"
    /\ data this' = None
    /\ dateColumn this' = default dc "date"
    /\ targetColumn this' = default tc "target"
    /\ channelColumns (numeric this') = channelColumns (numeric this)
    /\ controlColumns this' = controlColumns this
    /\ model this' = model this
    /\ results (numeric this') = results (numeric this)
    /\ console w' = console w ++ [("Error loading data:", e)].
Proof.
  intros Hcc. rewrite MethodFacts.load_data_run.
  unfold chosen_columns. rewrite Hcc. cbn [List.length Nat.ltb Nat.leb].
  eexists. eexists. eexists. split; [reflexivity|].
  repeat split.
Qed.

Lemma X9_load_data_fails_half_assigned_witness :
  exists e this' w',
    load_data None (Some "day") None (Some []) (Some ["price"])
      (set_channelColumns ["tv"] new_MeridianWrapper, world)
    = (Throw e, (this', w'))
    /\ name e = "TypeError"
    /\ data this' = None
    /\ dateColumn this' = default (Some "day") "date"
    /\ targetColumn this' = default None "target"
    /\ channelColumns (numeric this')
       = channelColumns (numeric (set_channelColumns ["tv"] new_MeridianWrapper))
    /\ controlColumns this'
       = controlColumns (set_channelColumns ["tv"] new_MeridianWrapper)
    /\ model this' = model (set_channelColumns ["tv"] new_MeridianWrapper)
    /\ results (numeric this')
       = results (numeric (set_channelColumns ["tv"] new_MeridianWrapper))
    /\ console w' = console world ++ [("Error loading data:", e)].
Proof.
  apply (X9_load_data_fails_half_assigned (Some "day") None (Some []) (Some ["price"])
           (set_channelColumns ["tv"] new_MeridianWrapper) world).
  reflexivity.
Defined.

(** X10.  With channel columns given, [load_data] never reads [data]: it
    returns normally even for [null] data, stores the [null] and the given
    columns, and leaves [model] and [results] alone; [preprocess_data] and
    [build_model] called next both throw "No data loaded. Call load_data()
    first." and assign nothing. *)
Theorem X10_null_data_with_columns
    (dc tc : option string) (cols : list string) (ctl : option (list string))
    (lag bound : option float) (cal : option ModelData)
    (this : WrapperObject) (w : World float) :
  cols <> [] ->
  exists this',
    load_data None dc tc (Some cols) ctl (this, w) = (Return None, (this', w))
    /\ data this' = None
    /\ channelColumns (numeric this') = cols
    /\ model this' = model this
    /\ results (numeric this') = results (numeric this)
    /\ preprocess_data (this', w)
       = (Throw (Error "No data loaded. Call load_data() first."),
          (this', logged "Error preprocessing data:"
                    (Error "No data loaded. Call load_data() first.") w))
    /\ build_model lag bound cal (this', w)
       = (Throw (Error "No data loaded. Call load_data() first."),
          (this', logged "Error building model:"
                    (Error "No data loaded. Call load_data() first.") w)).
Proof.
  intros Hcols. rewrite MethodFacts.load_data_run.
  unfold chosen_columns. cbn [default].
  destruct cols as [|c cols]; [contradiction|]. cbn [List.length Nat.ltb Nat.leb].
  eexists. split; [reflexivity|].
  rewrite MethodFacts.preprocess_data_run, MethodFacts.build_model_run.
  repeat split.
Qed.

Lemma X10_null_data_with_columns_witness :
  exists this',
    load_data None None None (Some ["tv"; "radio"]) None (new_MeridianWrapper, world)
    = (Return None, (this', world))
    /\ data this' = None
    /\ channelColumns (numeric this') = ["tv"; "radio"]
    /\ model this' = model new_MeridianWrapper
    /\ results (numeric this') = results (numeric new_MeridianWrapper)
    /\ preprocess_data (this', world)
       = (Throw (Error "No data loaded. Call load_data() first."),
          (this', logged "Error preprocessing data:"
                    (Error "No data loaded. Call load_data() first.") world))
    /\ build_model None None None (this', world)
       = (Throw (Error "No data loaded. Call load_data() first."),
          (this', logged "Error building model:"
                    (Error "No data loaded. Call load_data() first.") world)).
Proof.
  apply (X10_null_data_with_columns None None ["tv"; "radio"] None None None None
           new_MeridianWrapper world).
  discriminate.
Defined.

(** X11.  [fit_model] on an object whose model was built always returns:
    the results it stores and returns have, for every channel of
    [channelColumns] (and for no other name), a series of exactly ninety
    values and an ROI entry whose [lower_bound] is not negative; it takes
    [91 * n + 2] random draws for [n] columns, reads neither [data] nor its
    arguments, and changes no other field.  Without a model it throws
    "No model built. Call build_model() first.", draws nothing and changes
    nothing. *)
Theorem X11_fit_model_results
    (it ch : option float) (this : WrapperObject) (w : World float) :
  match model this with
  | Some _ =>
      exists res w',
        fit_model it ch (this, w) = (Return res, (set_results (Some res) this, w'))
        /\ drawn w' = (drawn w + (91 * List.length (channelColumns (numeric this)) + 2))%nat
        /\ console w' = console w
        /\ (forall c, In c (channelColumns (numeric this)) ->
              exists series r,
                get c (channel_contributions res) = Some series
                /\ List.length series = 90%nat
                /\ get c (roi_values res) = Some r
                /\ lt (lower_bound r) 0 = false)
        /\ (forall c, ~ In c (channelColumns (numeric this)) ->
              get c (channel_contributions res) = None
              /\ get c (roi_values res) = None)
  | None =>
      fit_model it ch (this, w)
      = (Throw (Error "No model built. Call build_model() first."),
         (this, logged "Error fitting model:"
                  (Error "No model built. Call build_model() first.") w))
  end.
Proof.
  pose proof (MethodFacts.fit_model_run it ch this w) as Hfit.
  destruct (model this); [|exact Hfit].
  destruct Hfit as (res & Hrun & Hshape & Hcov & Hnone & _).
  destruct Hshape as (_ & _ & Hsame & Hser & Hroi).
  exists res. eexists. split; [exact Hrun|].
  split; [reflexivity|]. split; [reflexivity|]. split.
  - intros c Hc. destruct (Hcov c Hc) as (series & r & Hs & Hr).
    exists series, r. split; [exact Hs|]. split; [apply (Hser c series Hs)|].
    split; [exact Hr|].
    destruct (Hroi c r Hr) as (i & ->). apply MockFacts.Math_max_zero_not_negative.
  - intros c Hc. split; [now apply Hnone|]. apply Hsame. now apply Hnone.
Qed.

(** X12.  Whatever calls a client makes on a new object, in whatever order
    and whether they return or throw: when [results] is set, [model] is set
    (with status "built"), and the results are as [fit_model] builds them:
    the contributions and the ROI values have the same channels, and every
    series has exactly ninety values. *)
Theorem X12_object_stays_consistent (calls : list call) (w : World float) :
  let this := fst (after_calls calls w) in
  (results (numeric this) <> None -> model this <> None)
  /\ (forall m, model this = Some m -> status m = "built")
  /\ (forall res, results (numeric this) = Some res ->
        (forall c, get c (channel_contributions res) = None
                   <-> get c (roi_values res) = None)
        /\ (forall c series, get c (channel_contributions res) = Some series ->
              List.length series = 90%nat)).
Proof.
  cbv zeta.
  assert (Hinv : forall cs (h : Heap),
             consistent h -> consistent (fold_left (fun h c => after_call c h) cs h)).
  { induction cs as [|c cs IH]; intros h Hh; cbn [fold_left]; [exact Hh|].
    apply IH. now apply MethodFacts.consistent_after_call. }
  assert (Hnew : consistent (new_MeridianWrapper, w)).
  { unfold consistent. cbn. split; [intros Hc; now contradiction Hc|].
    split; intros x Hx; discriminate Hx. }
  destruct (Hinv calls _ Hnew) as (H1 & H2 & H3).
  split; [exact H1|]. split; [exact H2|].
  intros res Hres. destruct (H3 res Hres) as (_ & _ & Hsame & Hser & _).
  split; [exact Hsame|]. intros c series Hs. apply (Hser c series Hs).
Qed.

End LifecycleProperties.

Section PipelineProperties.

Import FloatSign Lifecycle Scenario.
Local Open Scope float_scope.

(** X13.  Right after a successful [fit_model], [generate_report_data]
    returns a report, and its time series are aligned: [dates], [target] and
    the series of every channel of [channelColumns] (copied from the
    results) have exactly ninety entries each. *)
Theorem X13_fit_then_report_aligned
    (it ch : option float) (this : WrapperObject) (w : World float) :
  model this <> None ->
  exists res h1 rep h2,
    fit_model it ch (this, w) = (Return res, h1)
    /\ report h1 = (Return rep, h2)
    /\ List.length (dates (time_series_data rep)) = 90%nat
    /\ List.length (target (time_series_data rep)) = 90%nat
    /\ channels_analyzed (model_summary rep)
       = List.length (channelColumns (numeric this))
    /\ forall c, In c (channelColumns (numeric this)) ->
         exists series,
           get c (channel_contributions res) = Some series
           /\ get c (series_channel_contributions (time_series_data rep)) = Some series
           /\ List.length series = 90%nat.
Proof.
  intros Hm. pose proof (MethodFacts.fit_model_run it ch this w) as Hfit.
  destruct (model this); [|contradiction].
  destruct Hfit as (res & Hrun & Hshape & Hcov & _).
  destruct Hshape as (_ & _ & _ & Hser & _).
  set (w1 := after_draws (91 * List.length (channelColumns (numeric this)) + 2) w) in *.
  set (this1 := set_results (Some res) this) in *.
  destruct (channel_metrics_present res (channelColumns (numeric this))
              (initial_report (numeric this1) res (next_draws target_of_draw 90 w1))
              Hcov eq_refl)
    as (rep & Hrep & Hms & Hd & Ht & _ & Hsc & _).
  exists res, (this1, w1), rep, (this1, after_draws 90 w1).
  split; [exact Hrun|].
  split.
  { rewrite (MethodFacts.report_run_results this1 res) by reflexivity.
    change (channelColumns (numeric this1)) with (channelColumns (numeric this)).
    now rewrite Hrep. }
  split; [rewrite Hd; cbn [initial_report time_series_data dates];
          now rewrite length_map, length_seq|].
  split; [rewrite Ht; cbn [initial_report time_series_data target];
          apply MockFacts.next_draws_shape|].
  split; [now rewrite Hms|].
  intros c Hc. destruct (Hcov c Hc) as (series & r & Hs & _).
  exists series. split; [exact Hs|]. split; [now rewrite (Hsc c Hc)|].
  apply (Hser c series Hs).
Qed.

Lemma X13_fit_then_report_aligned_witness :
  exists res h1 rep h2,
    fit_model None None
      (set_model (Some {| status := "built";
                          params := {| adstockMaxLag := 4; hillExponentBound := 3;
                                       calibrationData := None;
                                       params_channels := ["tv"; "radio"];
                                       params_target := "target";
                                       params_controls := [] |} |})
         (set_channelColumns ["tv"; "radio"] new_MeridianWrapper), world)
    = (Return res, h1)
    /\ report h1 = (Return rep, h2)
    /\ List.length (dates (time_series_data rep)) = 90%nat
    /\ List.length (target (time_series_data rep)) = 90%nat
    /\ channels_analyzed (model_summary rep) = List.length ["tv"; "radio"]
    /\ forall c, In c ["tv"; "radio"] ->
         exists series,
           get c (channel_contributions res) = Some series
           /\ get c (series_channel_contributions (time_series_data rep)) = Some series
           /\ List.length series = 90%nat.
Proof.
  apply (X13_fit_then_report_aligned None None
           (set_model (Some {| status := "built";
                               params := {| adstockMaxLag := 4; hillExponentBound := 3;
                                            calibrationData := None;
                                            params_channels := ["tv"; "radio"];
                                            params_target := "target";
                                            params_controls := [] |} |})
              (set_channelColumns ["tv"; "radio"] new_MeridianWrapper)) world).
  discriminate.
Defined.



(** X15.  Results go stale: [load_data] keeps the results of an earlier
    [fit_model], so when it is called afterwards with a channel column the
    model was not fitted on, [generate_report_data] throws a [TypeError]
    (and logs it) until [fit_model] runs again, while the allocator still
    returns an allocation for the old results. *)
Theorem X15_report_fails_on_unfitted_column
    (it ch : option float) (d : option ModelData) (dc tc : option string)
    (cols : list string) (ctl : option (list string))
    (totalBudget : float) (constraints : option (obj (Constraint float)))
    (this : WrapperObject) (w : World float) :
  model this <> None ->
  (exists c, In c cols /\ ~ In c (channelColumns (numeric this))) ->
  exists res h1 h2 e h3 allocation,
    fit_model it ch (this, w) = (Return res, h1)
    /\ load_data d dc tc (Some cols) ctl h1 = (Return d, h2)
    /\ results (numeric (fst h2)) = Some res
    /\ report h2 = (Throw e, h3)
    /\ name e = "TypeError"
    /\ console (snd h3) = console w ++ [("Error generating report data:", e)]
    /\ allocate totalBudget constraints h2 = (Return allocation, h2).
Proof.
  intros Hm (c & Hc & Hnc).
  pose proof (MethodFacts.fit_model_run it ch this w) as Hfit.
  destruct (model this); [|contradiction].
  destruct Hfit as (res & Hrun & _ & _ & Hnone & _).
  set (w1 := after_draws (91 * List.length (channelColumns (numeric this)) + 2) w) in *.
  set (this2 := set_controlColumns (default ctl [])
                  (set_channelColumns cols
                     (set_targetColumn (default tc "target")
                        (set_dateColumn (default dc "date")
                           (set_data d (set_results (Some res) this)))))).
  destruct (channel_metrics_absent res cols
              (initial_report (numeric this2) res (next_draws target_of_draw 90 w1)))
    as (e & He & Hname).
  { exists c. split; [exact Hc|]. intros (s & r & Hs & _).
    rewrite (Hnone c Hnc) in Hs. discriminate. }
  exists res, (set_results (Some res) this, w1), (this2, w1), e,
    (this2, logged "Error generating report data:" e (after_draws 90 w1)).
  eexists.
  split; [exact Hrun|].
  split.
  { rewrite MethodFacts.load_data_run. unfold chosen_columns. cbn [default].
    destruct cols as [|c0 cols]; [destruct Hc|]. reflexivity. }
  split; [reflexivity|].
  split.
  { rewrite (MethodFacts.report_run_results this2 res) by reflexivity.
    change (channelColumns (numeric this2)) with cols.
    now rewrite He. }
  split; [exact Hname|]. split; [reflexivity|].
  rewrite MethodFacts.allocate_run. reflexivity.
Qed.

Lemma X15_report_fails_on_unfitted_column_witness :
  exists res h1 h2 e h3 allocation,
    fit_model None None
      (set_model (Some {| status := "built";
                          params := {| adstockMaxLag := 4; hillExponentBound := 3;
                                       calibrationData := None;
                                       params_channels := ["tv"];
                                       params_target := "target";
                                       params_controls := [] |} |})
         (set_channelColumns ["tv"] new_MeridianWrapper), world)
    = (Return res, h1)
    /\ load_data None None None (Some ["tv"; "radio"]) None h1 = (Return None, h2)
    /\ results (numeric (fst h2)) = Some res
    /\ report h2 = (Throw e, h3)
    /\ name e = "TypeError"
    /\ console (snd h3) = console world ++ [("Error generating report data:", e)]
    /\ allocate 100000 None h2 = (Return allocation, h2).
Proof.
  apply (X15_report_fails_on_unfitted_column None None None None None
           ["tv"; "radio"] None 100000 None
           (set_model (Some {| status := "built";
                               params := {| adstockMaxLag := 4; hillExponentBound := 3;
                                            calibrationData := None;
                                            params_channels := ["tv"];
                                            params_target := "target";
                                            params_controls := [] |} |})
              (set_channelColumns ["tv"] new_MeridianWrapper)) world).
  - discriminate.
  - exists "radio". split; [right; now left|].
    cbn. intros [Heq | []]. discriminate Heq.
Defined.

End PipelineProperties.

Section RouteProperties.

Import FloatSign Lifecycle Scenario.
Local Open Scope float_scope.


Lemma mbind_throw {A B} (c : Method A) (k : A -> Method B) (h h' : Heap) (e : JsError) :
  c h = (Throw e, h') -> mbind c k h = (Throw e, h').
Proof. intros Hc. unfold mbind. now rewrite Hc. Qed.

(** The object the route has built when it calls [fit_model]. *)
Lemma route_until_fit (d : ModelData) (modelConfig : option ModelConfig)
    (k : Results float -> Method (Results float * ReportData float * option (obj float)))
    (this0 : WrapperObject) (w : World float) :
  exists res,
    mock_shaped (random w) res
    /\ (forall c, In c (keys (default (channels d) [])) -> present res c)
    /\ (NoDup (keys (default (channels d) [])) ->
        keys (roi_values res) = keys (default (channels d) []))
    /\ (assign (fun _ => new_MeridianWrapper) ;;;
        load_data (Some d) None None None None ;;;
        preprocess_data ;;;
        build_model
          (Some (or_else (match modelConfig with
                          | Some c => config_adstockMaxLag c
                          | None => None
                          end) 4))
          (Some (or_else (match modelConfig with
                          | Some c => config_hillExponentBound c
                          | None => None
                          end) 3)) None ;;;
        modelResults <- fit_model None None ;;
        k modelResults)%method (this0, w)
       = k res
           (set_results (Some res) (route_object d modelConfig),
            after_draws (91 * List.length (keys (default (channels d) [])) + 2) w).
Proof.
  pose proof (MethodFacts.fit_model_run None None (route_object d modelConfig) w) as Hfit.
  cbn [route_object set_model model] in Hfit.
  destruct Hfit as (res & Hrun & Hshape & Hcov & _ & Hkeys).
  exists res. split; [exact Hshape|]. split; [exact Hcov|].
  split; [intros Hnd; now apply Hkeys|].
  unfold mbind at 1. unfold assign at 1. cbn [fst snd].
  unfold mbind at 1. rewrite MethodFacts.load_data_run. cbn [chosen_columns default List.length Nat.ltb Nat.leb].
  unfold mbind at 1. rewrite MethodFacts.preprocess_data_run. cbn [data set_controlColumns set_channelColumns set_targetColumn set_dateColumn set_data].
  unfold mbind at 1. rewrite MethodFacts.build_model_run. cbn [data set_controlColumns set_channelColumns set_targetColumn set_dateColumn set_data]. cbv zeta.
  unfold mbind at 1.
  change (fit_model None None _) with (fit_model None None (route_object d modelConfig, w)).
  rewrite Hrun. reflexivity.
Qed.

Lemma route_run (d : ModelData) (chans : obj (list float))
    (modelConfig : option ModelConfig) (this0 : WrapperObject) (w : World float) :
  channels d = Some chans ->
  exists res rep,
    mock_shaped (random w) res
    /\ (forall c, In c (keys chans) -> present res c)
    /\ (NoDup (keys chans) -> keys (roi_values res) = keys chans)
    /\ channel_metrics res (keys chans)
         (initial_report
            {| results := Some res; channelColumns := keys chans |} res
            (next_draws target_of_draw 90
               (after_draws (91 * List.length (keys chans) + 2) w)))
       = Return rep
    /\ model_route (Some d) modelConfig (this0, w)
       = (Return (res, rep, route_allocation chans modelConfig res),
          (set_results (Some res) (route_object d modelConfig),
           after_draws 90 (after_draws (91 * List.length (keys chans) + 2) w))).
Proof.
  intros Hch.
  unfold model_route. cbv zeta.
  match goal with
  | |- context [mbind (fit_model None None) ?k] =>
      destruct (route_until_fit d modelConfig k this0 w)
        as (res & Hshape & Hcov & Hkeys & Hrun)
  end.
  rewrite Hch in Hcov, Hkeys. cbn [default] in Hcov, Hkeys.
  destruct (channel_metrics_present res (keys chans)
              (initial_report
                 {| results := Some res; channelColumns := keys chans |} res
                 (next_draws target_of_draw 90
                    (after_draws (91 * List.length (keys chans) + 2) w)))
              Hcov eq_refl)
    as (rep & Hrep & _).
  exists res, rep. split; [exact Hshape|]. split; [exact Hcov|].
  split; [exact Hkeys|]. split; [exact Hrep|].
  rewrite Hrun. clear Hrun. rewrite Hch. cbn [default].
  set (this3 := set_results (Some res) (route_object d modelConfig)).
  set (w3 := after_draws (91 * List.length (keys chans) + 2) w).
  assert (Hreport : report (this3, w3) = (Return rep, (this3, after_draws 90 w3))).
  { rewrite (MethodFacts.report_run_results this3 res) by reflexivity.
    change (channelColumns (numeric this3)) with (keys (default (channels d) [])).
    change (numeric this3)
      with {| results := Some res; channelColumns := keys (default (channels d) []) |}.
    rewrite Hch. cbn [default]. fold w3 in Hrep |- *. now rewrite Hrep. }
  assert (Halloc : forall b cs,
             allocate b cs (this3, w3)
             = (Return (normalize b
                          (apply_constraints cs
                             (initial_allocation (roi_means res)
                                (reduce_sum (values (roi_means res))) b))),
                (this3, w3))).
  { intros b cs. rewrite MethodFacts.allocate_run. reflexivity. }
  unfold route_allocation, route_budget, or_else, default_budget.
  rewrite Hch.
  destruct modelConfig as [c|].
  - destruct (optimizeBudget c).
    + destruct (totalBudget c) as [v|]; [destruct (truthy v)|];
        unfold mbind, mret; rewrite Halloc, Hreport; reflexivity.
    + unfold mbind, mret. rewrite Hreport. reflexivity.
  - unfold mbind, mret. rewrite Hreport. reflexivity.
Qed.

(** What [fit_model] stores when there is no column. *)
Lemma no_column_results (res : Results float) (source : nat -> float) :
  mock_shaped source res ->
  (NoDup (@nil string) -> keys (roi_values res) = []) ->
  roi_values res = []
  /\ channel_contributions res = [].
Proof.
  intros (_ & _ & Hsame & _) Hk.
  assert (Hroi : roi_values res = []).
  { specialize (Hk (NoDup_nil _)). destruct (roi_values res); [reflexivity | discriminate]. }
  split; [exact Hroi|].
  destruct (channel_contributions res) as [|[k s] rest] eqn:Hcc; [reflexivity|].
  exfalso. specialize (Hsame k). rewrite Hroi in Hsame. cbn in Hsame.
  rewrite String.eqb_refl in Hsame. destruct Hsame as [_ Hs].
  specialize (Hs eq_refl). discriminate Hs.
Qed.

(** The pipeline without data: [load_data] throws and logs. *)
Lemma route_without_data_run (modelConfig : option ModelConfig)
    (this0 : WrapperObject) (w : World float) :
  exists this' w',
    model_route None modelConfig (this0, w)
    = (Throw (TypeError_null "channels"), (this', w'))
    /\ model this' = None
    /\ results (numeric this') = None
    /\ drawn w' = drawn w
    /\ console w' = console w ++ [("Error loading data:", TypeError_null "channels")].
Proof.
  unfold model_route.
  unfold mbind at 1. unfold assign at 1. cbn [fst snd].
  unfold mbind at 1. rewrite MethodFacts.load_data_run.
  cbn [chosen_columns default List.length Nat.ltb Nat.leb].
  eexists. eexists. split; [reflexivity|].
  repeat split.
Qed.

(** The pipeline on data without [channels], when the default budget is
    needed: the [TypeError] of [Object.values(undefined)], after the fit. *)
Lemma route_no_columns_throws (d : ModelData) (modelConfig : option ModelConfig)
    (this0 : WrapperObject) (w : World float) :
  channels d = None ->
  default_budget_needed modelConfig = true ->
  exists res,
    roi_values res = []
    /\ channel_contributions res = []
    /\ model_route (Some d) modelConfig (this0, w)
       = (Throw TypeError_convert,
          (set_results (Some res) (route_object d modelConfig), after_draws 2 w)).
Proof.
  intros Hch Hneed.
  destruct modelConfig as [c|]; [|discriminate Hneed].
  cbn [default_budget_needed] in Hneed.
  apply andb_true_iff in Hneed. destruct Hneed as [Hopt Hfalsy].
  apply negb_true_iff in Hfalsy.
  unfold model_route. cbv zeta.
  match goal with
  | |- context [mbind (fit_model None None) ?k] =>
      destruct (route_until_fit d (Some c) k this0 w)
        as (res & Hshape & _ & Hkeys & Hrun)
  end.
  rewrite Hch in Hkeys. cbn [default keys map] in Hkeys.
  destruct (no_column_results res _ Hshape Hkeys) as [Hroi Hcc].
  exists res. split; [exact Hroi|]. split; [exact Hcc|].
  rewrite Hrun. clear Hrun. rewrite Hopt, Hch. cbn [default keys map List.length].
  change (91 * 0 + 2)%nat with 2%nat.
  assert (Hthrow : forall h : Heap,
             match totalBudget c with
             | Some v => if truthy v then mret v else fun h0 => (default_budget d, h0)
             | None => fun h0 => (default_budget d, h0)
             end h = (Throw TypeError_convert, h)).
  { intros h. unfold default_budget. rewrite Hch.
    destruct (totalBudget c) as [v|]; [|reflexivity].
    now rewrite Hfalsy. }
  unfold mbind at 1. unfold mbind at 1. rewrite Hthrow. reflexivity.
Qed.

(** The pipeline on data without [channels], when the default budget is not
    needed: empty results, an empty report, an empty allocation if any. *)
Lemma route_no_columns_returns (d : ModelData) (modelConfig : option ModelConfig)
    (this0 : WrapperObject) (w : World float) :
  channels d = None ->
  default_budget_needed modelConfig = false ->
  exists res,
    roi_values res = []
    /\ channel_contributions res = []
    /\ model_route (Some d) modelConfig (this0, w)
       = (Return (res,
                  initial_report {| results := Some res; channelColumns := [] |} res
                    (next_draws target_of_draw 90 (after_draws 2 w)),
                  match modelConfig with
                  | Some c => if optimizeBudget c then Some [] else None
                  | None => None
                  end),
          (set_results (Some res) (route_object d modelConfig),
           after_draws 90 (after_draws 2 w))).
Proof.
  intros Hch Hneed.
  unfold model_route. cbv zeta.
  match goal with
  | |- context [mbind (fit_model None None) ?k] =>
      destruct (route_until_fit d modelConfig k this0 w)
        as (res & Hshape & _ & Hkeys & Hrun)
  end.
  rewrite Hch in Hkeys. cbn [default keys map] in Hkeys.
  destruct (no_column_results res _ Hshape Hkeys) as [Hroi Hcc].
  exists res. split; [exact Hroi|]. split; [exact Hcc|].
  rewrite Hrun. clear Hrun. rewrite Hch. cbn [default keys map List.length].
  change (91 * 0 + 2)%nat with 2%nat.
  set (this3 := set_results (Some res) (route_object d modelConfig)).
  set (w3 := after_draws 2 w).
  assert (Hcols : channelColumns (numeric this3) = []).
  { cbn. now rewrite Hch. }
  assert (Hreport : report (this3, w3)
                    = (Return (initial_report
                                 {| results := Some res; channelColumns := [] |} res
                                 (next_draws target_of_draw 90 w3)),
                       (this3, after_draws 90 w3))).
  { rewrite (MethodFacts.report_run_results this3 res) by reflexivity.
    rewrite Hcols.
    change (numeric this3)
      with {| results := Some res; channelColumns := keys (default (channels d) []) |}.
    rewrite Hch. reflexivity. }
  assert (Halloc : forall b cs, allocate b (Some cs) (this3, w3) = (Return [], (this3, w3))).
  { intros b cs. rewrite MethodFacts.allocate_run. cbn [this3 set_results numeric results].
    unfold roi_means. rewrite Hroi. cbn [for_in keys map fold_left values].
    unfold initial_allocation. cbn [for_in keys map fold_left].
    rewrite apply_constraints_unknown by (intros k _; reflexivity).
    unfold normalize. cbn [values map for_in keys fold_left].
    destruct (strict_ne _ _); reflexivity. }
  destruct modelConfig as [c|].
  - cbn [default_budget_needed] in Hneed.
    destruct (optimizeBudget c) eqn:Hopt.
    + cbn [andb] in Hneed. apply negb_false_iff in Hneed.
      destruct (totalBudget c) as [v|]; [|discriminate Hneed].
      rewrite Hneed.
      unfold mbind, mret. rewrite Halloc, Hreport. reflexivity.
    + unfold mbind, mret. rewrite Hreport. reflexivity.
  - unfold mbind, mret. rewrite Hreport. reflexivity.
Qed.

End RouteProperties.

Section RouteTheorems.

Import FloatSign Lifecycle Scenario.
Local Open Scope float_scope.



(** X17.  Without processed data ([data] is [null]) the route answers 500
    "Failed to create marketing mix model": [load_data] throws a [TypeError]
    on [data.channels], which is logged twice, as "Error loading data:" by
    the method and as "Error creating marketing mix model:" by the route; no
    model is built, no results exist and no random number is drawn. *)
Theorem X17_route_without_data
    (modelConfig : option ModelConfig) (this0 : WrapperObject) (w : World float) :
  exists e resp this' w',
    POST None modelConfig (this0, w) = (Return resp, (this', w'))
    /\ response_status resp = 500%nat
    /\ body resp = Failure "Failed to create marketing mix model"
    /\ name e = "TypeError"
    /\ model this' = None
    /\ results (numeric this') = None
    /\ drawn w' = drawn w
    /\ console w'
       = console w ++ [("Error loading data:", e);
                       ("Error creating marketing mix model:", e)].
Proof.
  destruct (route_without_data_run modelConfig this0 w)
    as (this' & w' & Hrun & Hmodel & Hres & Hdrawn & Hcons).
  exists (TypeError_null "channels"). eexists. exists this'. eexists.
  unfold POST, mtry. rewrite (mbind_throw _ _ _ _ _ Hrun).
  split; [reflexivity|].
  split; [reflexivity|]. split; [reflexivity|]. split; [reflexivity|].
  split; [exact Hmodel|]. split; [exact Hres|]. split; [exact Hdrawn|].
  cbn [console snd fst]. rewrite Hcons, <- app_assoc. reflexivity.
Qed.

(** X18.  A requested [totalBudget] that is missing, 0 or NaN counts as not
    given: with [optimizeBudget] set, the allocator is then called with 1.1
    times the sum of all values of all channels of the data, and with the
    constraints of the request (none when absent). *)
Theorem X18_route_default_budget
    (d : ModelData) (chans : obj (list float)) (c : ModelConfig)
    (this0 : WrapperObject) (w : World float) :
  channels d = Some chans ->
  optimizeBudget c = true ->
  match totalBudget c with
  | Some v => strict_eq v 0 = true \/ is_nan v = true
  | None => True
  end ->
  exists res rep a h',
    model_route (Some d) (Some c) (this0, w) = (Return (res, rep, Some a), h')
    /\ results (numeric (fst h')) = Some res
    /\ allocate
         (fold_left (fun sum channel => sum + reduce_sum channel) (values chans) 0
          * lit_1_1)
         (Some (default (budgetConstraints c) [])) h'
       = (Return a, h').
Proof.
  intros Hch Hopt Hfalsy.
  destruct (route_run d chans (Some c) this0 w Hch)
    as (res & rep & _ & _ & _ & _ & Hrun).
  exists res, rep. eexists. eexists. rewrite Hrun.
  unfold route_allocation. rewrite Hopt.
  split; [reflexivity|]. split; [reflexivity|].
  rewrite MethodFacts.allocate_run. cbn [fst set_results numeric results].
  assert (Hb : route_budget chans c
               = fold_left (fun sum channel => sum + reduce_sum channel)
                   (values chans) 0 * lit_1_1).
  { unfold route_budget, or_else. destruct (totalBudget c) as [v|]; [|reflexivity].
    unfold truthy. destruct Hfalsy as [Hz | Hn].
    - cbn [strict_eq Number_float] in Hz. now rewrite Hz.
    - rewrite Hn. now rewrite andb_false_r. }
  now rewrite Hb.
Qed.

Lemma X18_route_default_budget_witness :
  exists res rep a h',
    model_route (Some {| channels := Some [("tv", [1; 2; 3]); ("radio", [4; 5])] |})
      (Some {| config_adstockMaxLag := None; config_hillExponentBound := None;
               optimizeBudget := true; totalBudget := Some 0;
               budgetConstraints := None |})
      (new_MeridianWrapper, world)
    = (Return (res, rep, Some a), h')
    /\ results (numeric (fst h')) = Some res
    /\ allocate
         (fold_left (fun sum channel => sum + reduce_sum channel)
            (values [("tv", [1; 2; 3]); ("radio", [4; 5])]) 0
          * lit_1_1)
         (Some (default None [])) h'
       = (Return a, h').
Proof.
  apply (X18_route_default_budget
           {| channels := Some [("tv", [1; 2; 3]); ("radio", [4; 5])] |}
           [("tv", [1; 2; 3]); ("radio", [4; 5])]
           {| config_adstockMaxLag := None; config_hillExponentBound := None;
              optimizeBudget := true; totalBudget := Some 0;
              budgetConstraints := None |}).
  - reflexivity.
  - reflexivity.
  - left. reflexivity.
Defined.

(** X19.  Data without a [channels] property passes [load_data] (no
    columns), [build_model] and [fit_model] (two draws, empty results); when
    the route then needs the default budget ([optimizeBudget] set and
    [totalBudget] missing, 0 or NaN), [Object.values(data.channels)] throws
    a [TypeError] and the route answers 500, with the model fitted and one
    line on the console. *)
Theorem X19_route_fails_after_fit
    (d : ModelData) (modelConfig : option ModelConfig)
    (this0 : WrapperObject) (w : World float) :
  channels d = None ->
  default_budget_needed modelConfig = true ->
  exists resp this' w' res,
    POST (Some d) modelConfig (this0, w) = (Return resp, (this', w'))
    /\ response_status resp = 500%nat
    /\ body resp = Failure "Failed to create marketing mix model"
    /\ channelColumns (numeric this') = []
    /\ model this' <> None
    /\ results (numeric this') = Some res
    /\ roi_values res = []
    /\ channel_contributions res = []
    /\ drawn w' = (drawn w + 2)%nat
    /\ console w'
       = console w ++ [("Error creating marketing mix model:", TypeError_convert)].
Proof.
  intros Hch Hneed.
  destruct (route_no_columns_throws d modelConfig this0 w Hch Hneed)
    as (res & Hroi & Hcc & Hrun).
  eexists. eexists. eexists. exists res.
  unfold POST, mtry. rewrite (mbind_throw _ _ _ _ _ Hrun).
  split; [reflexivity|].
  split; [reflexivity|]. split; [reflexivity|].
  split; [cbn; now rewrite Hch|].
  split; [discriminate|].
  split; [reflexivity|]. split; [exact Hroi|]. split; [exact Hcc|].
  split; [cbn; lia | reflexivity].
Qed.

Lemma X19_route_fails_after_fit_witness :
  exists resp this' w' res,
    POST (Some {| channels := None |})
      (Some {| config_adstockMaxLag := None; config_hillExponentBound := None;
               optimizeBudget := true; totalBudget := None;
               budgetConstraints := None |})
      (new_MeridianWrapper, world)
    = (Return resp, (this', w'))
    /\ response_status resp = 500%nat
    /\ body resp = Failure "Failed to create marketing mix model"
    /\ channelColumns (numeric this') = []
    /\ model this' <> None
    /\ results (numeric this') = Some res
    /\ roi_values res = []
    /\ channel_contributions res = []
    /\ drawn w' = (drawn world + 2)%nat
    /\ console w'
       = console world
         ++ [("Error creating marketing mix model:", TypeError_convert)].
Proof.
  apply (X19_route_fails_after_fit {| channels := None |}
           (Some {| config_adstockMaxLag := None; config_hillExponentBound := None;
                    optimizeBudget := true; totalBudget := None;
                    budgetConstraints := None |})).
  - reflexivity.
  - reflexivity.
Defined.

(** X20.  Data without a [channels] property and no need for the default
    budget: the pipeline returns results and a report without any channel
    ([channels_analyzed] is 0), and the allocation, when requested, is the
    empty object, whatever the budget and the constraints. *)
Theorem X20_route_without_channels_returns
    (d : ModelData) (modelConfig : option ModelConfig)
    (this0 : WrapperObject) (w : World float) :
  channels d = None ->
  default_budget_needed modelConfig = false ->
  exists res rep alloc h',
    model_route (Some d) modelConfig (this0, w) = (Return (res, rep, alloc), h')
    /\ roi_values res = []
    /\ channel_contributions res = []
    /\ channel_performance rep = []
    /\ channels_analyzed (model_summary rep) = 0%nat
    /\ List.length (target (time_series_data rep)) = 90%nat
    /\ match alloc with
       | Some a => a = [] /\ exists c, modelConfig = Some c /\ optimizeBudget c = true
       | None => forall c, modelConfig = Some c -> optimizeBudget c = false
       end.
Proof.
  intros Hch Hneed.
  destruct (route_no_columns_returns d modelConfig this0 w Hch Hneed)
    as (res & Hroi & Hcc & Hrun).
  exists res. eexists. eexists. eexists. split; [exact Hrun|].
  split; [exact Hroi|]. split; [exact Hcc|]. split; [reflexivity|].
  split; [reflexivity|].
  split; [apply MockFacts.next_draws_shape|].
  destruct modelConfig as [c|].
  - destruct (optimizeBudget c) eqn:Hopt.
    + split; [reflexivity|]. exists c. split; [reflexivity | exact Hopt].
    + intros c' Hc'. inversion Hc'; subst c'. exact Hopt.
  - intros c Hc. discriminate Hc.
Qed.

Lemma X20_route_without_channels_returns_witness :
  exists res rep alloc h',
    model_route (Some {| channels := None |})
      (Some {| config_adstockMaxLag := None; config_hillExponentBound := None;
               optimizeBudget := true; totalBudget := Some 100000;
               budgetConstraints := Some [("tv", only_min 5)] |})
      (new_MeridianWrapper, world)
    = (Return (res, rep, alloc), h')
    /\ roi_values res = []
    /\ channel_contributions res = []
    /\ channel_performance rep = []
    /\ channels_analyzed (model_summary rep) = 0%nat
    /\ List.length (target (time_series_data rep)) = 90%nat
    /\ match alloc with
       | Some a =>
           a = []
           /\ exists c,
                Some {| config_adstockMaxLag := None; config_hillExponentBound := None;
                        optimizeBudget := true; totalBudget := Some 100000;
                        budgetConstraints := Some [("tv", only_min 5)] |} = Some c
                /\ optimizeBudget c = true
       | None =>
           forall c,
             Some {| config_adstockMaxLag := None; config_hillExponentBound := None;
                     optimizeBudget := true; totalBudget := Some 100000;
                     budgetConstraints := Some [("tv", only_min 5)] |} = Some c ->
             optimizeBudget c = false
       end.
Proof.
  apply (X20_route_without_channels_returns {| channels := None |}).
  - reflexivity.
  - reflexivity.
Defined.


End RouteTheorems.
